(** * Social-media automation pipeline: a shallow embedding of the agents
      and of the workflow graph, with the properties of the specification.

    Sources embedded here (paths relative to the repository root):
    - [src/workflow/state.py]    the shared state and [create_initial_state]
    - [src/workflow/graph.py]    the LangGraph nodes, edges and [_should_publish]
    - [src/agents/*.py]          the intent, research, filtering, summarization,
                                 drafting and publishing agents
    - [src/utils/reddit_client.py]  [search_posts], [_parse_post],
                                 [get_relevant_subreddits]

    Modelling conventions.
    - Python [int] is [Z]; Python [float] is an exact rational [Q] (no
      rounding, no overflow, no NaN); [str] is [string], a character being an
      [ascii]. Where the order of two scores decides, the ranking is given
      on binary64 numbers as well ([rank_posts64]).
    - A value decoded from a reasoning-service reply is a [json]; fields of the
      state that are filled from such a reply hold a [json], as the Python
      dictionary does.
    - A stage is a function into the monad [M]: it logs the external calls it
      makes and either returns a value or raises a Python exception.
    - Everything outside the repository (the reasoning service, [json.loads],
      Reddit, Twitter, the database) is an oracle carried by a [World]. *)

From Stdlib Require Import Floats.PrimFloat.
From Stdlib Require Numbers.Cyclic.Int63.Uint63.
From Stdlib Require Import ZArith QArith Lqa Lia String Ascii List.
From Stdlib Require Import Sorting.Sorted Sorting.Permutation.
From stdpp Require Import base option list strings gmap.
Import ListNotations.

Local Open Scope string_scope.
Local Open Scope list_scope.

(** ** Python values and exceptions *)

Set Warnings "-register-all".

Inductive json : Type :=
  | JNull
  | JBool (b : bool)
  | JInt (z : Z)
  | JFloat (q : Q)
  | JStr (s : string)
  | JArr (l : list json)
  | JObj (kv : list (string * json)).

Inductive exn_kind : Type :=
  | JSONDecodeError | KeyError | ValueError | AttributeError | TypeError
  | RuntimeError | UnboundLocalError | GraphRecursionError | ExternalError.

Record exn : Type := Exn { exn_type : exn_kind; exn_msg : string }.

Inductive res (A : Type) : Type :=
  | Ok (a : A)
  | Raise (e : exn).
Arguments Ok {A} a.
Arguments Raise {A} e.

Inductive agent : Type :=
  | AIntent | AResearch | AFilter | ASummarize | ADraft | APublish.

Inductive node : Type :=
  | NIntent | NResearch | NFilter | NSummarize | NDraft | NReview | NPublish.

(** What a run does to the outside world, in order. *)
Inductive event : Type :=
  | EvLLM (a : agent)      (* [BaseAgent.invoke_llm] of this agent *)
  | EvNode (n : node)      (* the graph enters this node *)
  | EvTweet.               (* [twitter_client.client.create_tweet] *)

Definition exn_kind_eqb (a b : exn_kind) : bool :=
  match a, b with
  | JSONDecodeError, JSONDecodeError | KeyError, KeyError
  | ValueError, ValueError | AttributeError, AttributeError
  | TypeError, TypeError | RuntimeError, RuntimeError
  | UnboundLocalError, UnboundLocalError
  | GraphRecursionError, GraphRecursionError
  | ExternalError, ExternalError => true
  | _, _ => false
  end.

(** ** The monad of a stage: a log of external calls and a result *)

Definition M (A : Type) : Type := (list event * res A)%type.

Definition ret {A} (a : A) : M A := ([], Ok a).
Definition raise {A} (e : exn) : M A := ([], Raise e).
Definition tell (ev : event) : M unit := ([ev], Ok tt).

Definition bind {A B} (m : M A) (k : A -> M B) : M B :=
  match m with
  | (t, Raise e) => (t, Raise e)
  | (t, Ok a) => let '(t', r) := k a in (t ++ t', r)
  end.

(** [try: body except (kinds): handler]: an exception of [body] whose type
    is in [kinds] is handled, any other one propagates. *)
Definition try_except {A} (body : M A) (kinds : list exn_kind)
    (handler : exn -> M A) : M A :=
  match body with
  | (t, Raise e) =>
      if existsb (exn_kind_eqb (exn_type e)) kinds
      then let '(t', r) := handler e in (t ++ t', r)
      else (t, Raise e)
  | ok => ok
  end.

(** [except Exception]: every exception is handled. *)
Definition try_except_all {A} (body : M A) (handler : exn -> M A) : M A :=
  match body with
  | (t, Raise e) => let '(t', r) := handler e in (t ++ t', r)
  | ok => ok
  end.

Definition lift {A} (r : res A) : M A := ([], r).

Declare Scope py_scope.
Delimit Scope py_scope with py.
Notation "'do' x <- m ; k" := (bind m (fun x => k))
  (at level 10, x name, m at level 100, k at level 200) : py_scope.
Local Open Scope py_scope.

(** ** Python primitives on decoded values *)

Definition Qnonzero (q : Q) : bool := negb (Qeq_bool q 0).

(** [bool(v)] *)
Definition truthy (v : json) : bool :=
  match v with
  | JNull => false
  | JBool b => b
  | JInt z => negb (z =? 0)%Z
  | JFloat q => Qnonzero q
  | JStr s => negb (String.eqb s "")
  | JArr l => match l with [] => false | _ => true end
  | JObj kv => match kv with [] => false | _ => true end
  end.

(** A dictionary is kept as its items in insertion order, one per key. *)
Fixpoint assoc_get (k : string) (kv : list (string * json)) : option json :=
  match kv with
  | [] => None
  | (k', v) :: rest => if String.eqb k k' then Some v else assoc_get k rest
  end.

Fixpoint assoc_set (k : string) (v : json) (kv : list (string * json))
    : list (string * json) :=
  match kv with
  | [] => [(k, v)]
  | (k', v') :: rest =>
      if String.eqb k k' then (k, v) :: rest else (k', v') :: assoc_set k v rest
  end.

(** [d.get(k, default)]; a value that is not a dictionary has no [get]. *)
Definition py_get (d : json) (k : string) (default : json) : res json :=
  match d with
  | JObj kv => Ok (match assoc_get k kv with Some v => v | None => default end)
  | _ => Raise (Exn AttributeError "object has no attribute 'get'")
  end.

(** [for x in v]: the items a loop over [v] visits; a string yields its
    characters, a dictionary its keys. *)
Definition py_iter (v : json) : res (list json) :=
  match v with
  | JArr l => Ok l
  | JStr s => Ok (map (fun c => JStr (String c "")) (list_ascii_of_string s))
  | JObj kv => Ok (map (fun p => JStr (fst p)) kv)
  | _ => Raise (Exn TypeError "object is not iterable")
  end.

(** [float(v)], with [float_of_str] the parser of [float] on strings. *)
Definition py_float (float_of_str : string -> option Q) (v : json) : res Q :=
  match v with
  | JInt z => Ok (inject_Z z)
  | JFloat q => Ok q
  | JBool b => Ok (if b then 1 else 0)%Q
  | JStr s =>
      match float_of_str s with
      | Some q => Ok q
      | None => Raise (Exn ValueError "could not convert string to float")
      end
  | _ => Raise (Exn TypeError "float() argument must be a string or a real number")
  end.

(** Whether [v] can be a dictionary key. *)
Definition hashable (v : json) : bool :=
  match v with
  | JArr _ | JObj _ => false
  | _ => true
  end.

(** ** Python strings *)

Fixpoint str_take (n : nat) (s : string) : string :=
  match n, s with
  | S n', String c s' => String c (str_take n' s')
  | _, _ => ""
  end.

Fixpoint str_drop (n : nat) (s : string) : string :=
  match n, s with
  | S n', String _ s' => str_drop n' s'
  | _, _ => s
  end.

(** [s[1:-1]] *)
Definition str_inner (s : string) : string :=
  str_take (String.length s - 2) (str_drop 1 s).

Definition startswith_char (c : ascii) (s : string) : bool :=
  match s with
  | String c' _ => Ascii.eqb c' c
  | EmptyString => false
  end.

Fixpoint endswith_char (c : ascii) (s : string) : bool :=
  match s with
  | EmptyString => false
  | String c' EmptyString => Ascii.eqb c' c
  | String _ s' => endswith_char c s'
  end.

(** The whitespace of [str.strip()] among the ASCII characters. *)
Definition is_space (c : ascii) : bool :=
  let n := nat_of_ascii c in
  (((9 <=? n) && (n <=? 13)) || ((28 <=? n) && (n <=? 32)))%nat.

Fixpoint lstrip (s : string) : string :=
  match s with
  | String c s' => if is_space c then lstrip s' else s
  | EmptyString => ""
  end.

Fixpoint rstrip (s : string) : string :=
  match s with
  | EmptyString => ""
  | String c s' =>
      match rstrip s' with
      | EmptyString => if is_space c then "" else String c ""
      | r => String c r
      end
  end.

Definition strip (s : string) : string := rstrip (lstrip s).

(** [s.replace(c, '')] for a one-character [c]. *)
Fixpoint remove_char (c : ascii) (s : string) : string :=
  match s with
  | EmptyString => ""
  | String c' s' =>
      if Ascii.eqb c' c then remove_char c s' else String c' (remove_char c s')
  end.

Definition lower_ascii (c : ascii) : ascii :=
  let n := nat_of_ascii c in
  if ((65 <=? n) && (n <=? 90))%nat then ascii_of_nat (n + 32) else c.

Fixpoint lower (s : string) : string :=
  match s with
  | EmptyString => ""
  | String c s' => String (lower_ascii c) (lower s')
  end.

(** [sub in s] *)
Fixpoint contains (sub s : string) : bool :=
  String.prefix sub s ||
  match s with
  | EmptyString => false
  | String _ s' => contains sub s'
  end.

(** The text before and after the first occurrence of [sep] in [s]. *)
Fixpoint split_first (sep s : string) {struct s} : option (string * string) :=
  if String.prefix sep s then Some ("", str_drop (String.length sep) s)
  else match s with
       | EmptyString => None
       | String c s' =>
           match split_first sep s' with
           | Some (b, a) => Some (String c b, a)
           | None => None
           end
       end.

(** [s.split(sep)[0]] *)
Definition split_0 (sep s : string) : string :=
  match split_first sep s with
  | Some (b, _) => b
  | None => s
  end.

(** [s.split(sep)[1]], an [IndexError] when [sep] does not occur. *)
Definition split_1 (sep s : string) : res string :=
  match split_first sep s with
  | Some (_, a) => Ok (split_0 sep a)
  | None => Raise (Exn ExternalError "list index out of range")
  end.

(** ** Python lists: slices and stable sorting *)

(** The stop index of [l[:k]] for a list of length [len]. *)
Definition slice_stop (len : nat) (k : Z) : nat :=
  if (k <? 0)%Z then Z.to_nat (Z.of_nat len + k) else Z.to_nat k.

(** [l[:k]] *)
Definition py_take {A} (k : Z) (l : list A) : list A :=
  take (slice_stop (length l) k) l.

Section StableSort.
Context {A K : Type} (key : A -> K) (ltb : K -> K -> bool).

(** [x] comes from the left of [l]: it stays before the elements of [l]
    whose key is not greater than its own. *)
Fixpoint insert_desc (x : A) (l : list A) : list A :=
  match l with
  | [] => [x]
  | y :: l' =>
      if ltb (key x) (key y) then y :: insert_desc x l' else x :: y :: l'
  end.

(** [sorted(l, key=key, reverse=True)]: descending and stable. *)
Definition sorted_desc (l : list A) : list A := foldr insert_desc [] l.

(** [a] may stand before [b] in a descending list. *)
Definition not_below (a b : A) : Prop := ltb (key a) (key b) = false.
End StableSort.

(** ** The data model *)

(** A post as [RedditClient._parse_post] builds it. The keys [url],
    [permalink], [created_at] and [is_self] are carried along and never read
    by the agents; they are left out. *)
Record Post : Type := mkPost {
  post_id : string;
  title : string;
  content : string;
  author : string;
  subreddit : string;
  score : Z;
  num_comments : Z;
  engagement_score : Z;
}.

(** The item of Reddit's listing that [_parse_post] reads. *)
Record RawPost : Type := mkRawPost {
  raw_id : string;
  raw_title : string;
  raw_selftext : string;
  raw_author : string;
  raw_subreddit : string;
  raw_score : Z;
  raw_num_comments : Z;
}.

Definition _parse_post (post_data : RawPost) : Post :=
  let score := raw_score post_data in
  let num_comments := raw_num_comments post_data in
  let engagement_score := (score + num_comments * 2)%Z in
  let title := raw_title post_data in
  let selftext := raw_selftext post_data in
  let content :=
    if negb (String.eqb selftext "")
    then title +:+ String "010" (String "010" (str_take 500 selftext))
    else title in
  mkPost (raw_id post_data) title content (raw_author post_data)
         (raw_subreddit post_data) score num_comments engagement_score.

(** [{**post, 'relevance_score': ..., 'combined_score': ...}] *)
Record ScoredPost : Type := mkScoredPost {
  sp_post : Post;
  relevance_score : Q;
  combined_score : Q;
}.

Inductive WorkflowStep : Type :=
  | START | INTENT_UNDERSTANDING | RESEARCH | FILTER | SUMMARIZE
  | DRAFT | HUMAN_REVIEW | PUBLISH | END_STEP.

(** The state dictionary: an absent key is [None] here. Besides the keys of
    [WorkflowState] it has the keys the agents and [_should_publish] read or
    write. *)
Record State : Type := mkState {
  workflow_id : option Z;
  current_step : option WorkflowStep;
  user_query : option string;
  topic : option json;
  scope : option json;
  tone : option json;
  raw_tweets : option (list Post);
  filtered_tweets : option (list ScoredPost);
  summary : option json;
  key_trends : option json;
  expert_opinions : option json;
  draft_content : option string;
  draft_version : option Z;
  draft_id : option Z;
  review_requested : option bool;
  approved : option bool;
  revision_requested : option bool;
  revision_feedback : option string;
  rejected : option bool;
  published : option bool;
  tweet_id : option json;
  tweet_url : option string;
  error : option string;
}.

(** [state["current_step"] = v] *)
Definition set_current_step (v : WorkflowStep) (st : State) : State :=
  mkState (st.(workflow_id)) (Some v) (st.(user_query)) (st.(topic))
    (st.(scope)) (st.(tone)) (st.(raw_tweets)) (st.(filtered_tweets))
    (st.(summary)) (st.(key_trends)) (st.(expert_opinions))
    (st.(draft_content)) (st.(draft_version)) (st.(draft_id))
    (st.(review_requested)) (st.(approved)) (st.(revision_requested))
    (st.(revision_feedback)) (st.(rejected)) (st.(published)) (st.(tweet_id))
    (st.(tweet_url)) (st.(error)).

(** [state["topic"] = v] *)
Definition set_topic (v : json) (st : State) : State :=
  mkState (st.(workflow_id)) (st.(current_step)) (st.(user_query)) (Some v)
    (st.(scope)) (st.(tone)) (st.(raw_tweets)) (st.(filtered_tweets))
    (st.(summary)) (st.(key_trends)) (st.(expert_opinions))
    (st.(draft_content)) (st.(draft_version)) (st.(draft_id))
    (st.(review_requested)) (st.(approved)) (st.(revision_requested))
    (st.(revision_feedback)) (st.(rejected)) (st.(published)) (st.(tweet_id))
    (st.(tweet_url)) (st.(error)).

(** [state["scope"] = v] *)
Definition set_scope (v : json) (st : State) : State :=
  mkState (st.(workflow_id)) (st.(current_step)) (st.(user_query))
    (st.(topic)) (Some v) (st.(tone)) (st.(raw_tweets)) (st.(filtered_tweets))
    (st.(summary)) (st.(key_trends)) (st.(expert_opinions))
    (st.(draft_content)) (st.(draft_version)) (st.(draft_id))
    (st.(review_requested)) (st.(approved)) (st.(revision_requested))
    (st.(revision_feedback)) (st.(rejected)) (st.(published)) (st.(tweet_id))
    (st.(tweet_url)) (st.(error)).

(** [state["tone"] = v] *)
Definition set_tone (v : json) (st : State) : State :=
  mkState (st.(workflow_id)) (st.(current_step)) (st.(user_query))
    (st.(topic)) (st.(scope)) (Some v) (st.(raw_tweets))
    (st.(filtered_tweets)) (st.(summary)) (st.(key_trends))
    (st.(expert_opinions)) (st.(draft_content)) (st.(draft_version))
    (st.(draft_id)) (st.(review_requested)) (st.(approved))
    (st.(revision_requested)) (st.(revision_feedback)) (st.(rejected))
    (st.(published)) (st.(tweet_id)) (st.(tweet_url)) (st.(error)).

(** [state["raw_tweets"] = v] *)
Definition set_raw_tweets (v : (list Post)) (st : State) : State :=
  mkState (st.(workflow_id)) (st.(current_step)) (st.(user_query))
    (st.(topic)) (st.(scope)) (st.(tone)) (Some v) (st.(filtered_tweets))
    (st.(summary)) (st.(key_trends)) (st.(expert_opinions))
    (st.(draft_content)) (st.(draft_version)) (st.(draft_id))
    (st.(review_requested)) (st.(approved)) (st.(revision_requested))
    (st.(revision_feedback)) (st.(rejected)) (st.(published)) (st.(tweet_id))
    (st.(tweet_url)) (st.(error)).

(** [state["filtered_tweets"] = v] *)
Definition set_filtered_tweets (v : (list ScoredPost)) (st : State) : State :=
  mkState (st.(workflow_id)) (st.(current_step)) (st.(user_query))
    (st.(topic)) (st.(scope)) (st.(tone)) (st.(raw_tweets)) (Some v)
    (st.(summary)) (st.(key_trends)) (st.(expert_opinions))
    (st.(draft_content)) (st.(draft_version)) (st.(draft_id))
    (st.(review_requested)) (st.(approved)) (st.(revision_requested))
    (st.(revision_feedback)) (st.(rejected)) (st.(published)) (st.(tweet_id))
    (st.(tweet_url)) (st.(error)).

(** [state["summary"] = v] *)
Definition set_summary (v : json) (st : State) : State :=
  mkState (st.(workflow_id)) (st.(current_step)) (st.(user_query))
    (st.(topic)) (st.(scope)) (st.(tone)) (st.(raw_tweets))
    (st.(filtered_tweets)) (Some v) (st.(key_trends)) (st.(expert_opinions))
    (st.(draft_content)) (st.(draft_version)) (st.(draft_id))
    (st.(review_requested)) (st.(approved)) (st.(revision_requested))
    (st.(revision_feedback)) (st.(rejected)) (st.(published)) (st.(tweet_id))
    (st.(tweet_url)) (st.(error)).

(** [state["key_trends"] = v] *)
Definition set_key_trends (v : json) (st : State) : State :=
  mkState (st.(workflow_id)) (st.(current_step)) (st.(user_query))
    (st.(topic)) (st.(scope)) (st.(tone)) (st.(raw_tweets))
    (st.(filtered_tweets)) (st.(summary)) (Some v) (st.(expert_opinions))
    (st.(draft_content)) (st.(draft_version)) (st.(draft_id))
    (st.(review_requested)) (st.(approved)) (st.(revision_requested))
    (st.(revision_feedback)) (st.(rejected)) (st.(published)) (st.(tweet_id))
    (st.(tweet_url)) (st.(error)).

(** [state["expert_opinions"] = v] *)
Definition set_expert_opinions (v : json) (st : State) : State :=
  mkState (st.(workflow_id)) (st.(current_step)) (st.(user_query))
    (st.(topic)) (st.(scope)) (st.(tone)) (st.(raw_tweets))
    (st.(filtered_tweets)) (st.(summary)) (st.(key_trends)) (Some v)
    (st.(draft_content)) (st.(draft_version)) (st.(draft_id))
    (st.(review_requested)) (st.(approved)) (st.(revision_requested))
    (st.(revision_feedback)) (st.(rejected)) (st.(published)) (st.(tweet_id))
    (st.(tweet_url)) (st.(error)).

(** [state["draft_content"] = v] *)
Definition set_draft_content (v : string) (st : State) : State :=
  mkState (st.(workflow_id)) (st.(current_step)) (st.(user_query))
    (st.(topic)) (st.(scope)) (st.(tone)) (st.(raw_tweets))
    (st.(filtered_tweets)) (st.(summary)) (st.(key_trends))
    (st.(expert_opinions)) (Some v) (st.(draft_version)) (st.(draft_id))
    (st.(review_requested)) (st.(approved)) (st.(revision_requested))
    (st.(revision_feedback)) (st.(rejected)) (st.(published)) (st.(tweet_id))
    (st.(tweet_url)) (st.(error)).

(** [state["draft_version"] = v] *)
Definition set_draft_version (v : Z) (st : State) : State :=
  mkState (st.(workflow_id)) (st.(current_step)) (st.(user_query))
    (st.(topic)) (st.(scope)) (st.(tone)) (st.(raw_tweets))
    (st.(filtered_tweets)) (st.(summary)) (st.(key_trends))
    (st.(expert_opinions)) (st.(draft_content)) (Some v) (st.(draft_id))
    (st.(review_requested)) (st.(approved)) (st.(revision_requested))
    (st.(revision_feedback)) (st.(rejected)) (st.(published)) (st.(tweet_id))
    (st.(tweet_url)) (st.(error)).

(** [state["draft_id"] = v] *)
Definition set_draft_id (v : Z) (st : State) : State :=
  mkState (st.(workflow_id)) (st.(current_step)) (st.(user_query))
    (st.(topic)) (st.(scope)) (st.(tone)) (st.(raw_tweets))
    (st.(filtered_tweets)) (st.(summary)) (st.(key_trends))
    (st.(expert_opinions)) (st.(draft_content)) (st.(draft_version)) (Some v)
    (st.(review_requested)) (st.(approved)) (st.(revision_requested))
    (st.(revision_feedback)) (st.(rejected)) (st.(published)) (st.(tweet_id))
    (st.(tweet_url)) (st.(error)).

(** [state["review_requested"] = v] *)
Definition set_review_requested (v : bool) (st : State) : State :=
  mkState (st.(workflow_id)) (st.(current_step)) (st.(user_query))
    (st.(topic)) (st.(scope)) (st.(tone)) (st.(raw_tweets))
    (st.(filtered_tweets)) (st.(summary)) (st.(key_trends))
    (st.(expert_opinions)) (st.(draft_content)) (st.(draft_version))
    (st.(draft_id)) (Some v) (st.(approved)) (st.(revision_requested))
    (st.(revision_feedback)) (st.(rejected)) (st.(published)) (st.(tweet_id))
    (st.(tweet_url)) (st.(error)).

(** [state["revision_requested"] = v] *)
Definition set_revision_requested (v : bool) (st : State) : State :=
  mkState (st.(workflow_id)) (st.(current_step)) (st.(user_query))
    (st.(topic)) (st.(scope)) (st.(tone)) (st.(raw_tweets))
    (st.(filtered_tweets)) (st.(summary)) (st.(key_trends))
    (st.(expert_opinions)) (st.(draft_content)) (st.(draft_version))
    (st.(draft_id)) (st.(review_requested)) (st.(approved)) (Some v)
    (st.(revision_feedback)) (st.(rejected)) (st.(published)) (st.(tweet_id))
    (st.(tweet_url)) (st.(error)).

(** [state["revision_feedback"] = v] *)
Definition set_revision_feedback (v : string) (st : State) : State :=
  mkState (st.(workflow_id)) (st.(current_step)) (st.(user_query))
    (st.(topic)) (st.(scope)) (st.(tone)) (st.(raw_tweets))
    (st.(filtered_tweets)) (st.(summary)) (st.(key_trends))
    (st.(expert_opinions)) (st.(draft_content)) (st.(draft_version))
    (st.(draft_id)) (st.(review_requested)) (st.(approved))
    (st.(revision_requested)) (Some v) (st.(rejected)) (st.(published))
    (st.(tweet_id)) (st.(tweet_url)) (st.(error)).

(** [state["rejected"] = v] *)
Definition set_rejected (v : bool) (st : State) : State :=
  mkState (st.(workflow_id)) (st.(current_step)) (st.(user_query))
    (st.(topic)) (st.(scope)) (st.(tone)) (st.(raw_tweets))
    (st.(filtered_tweets)) (st.(summary)) (st.(key_trends))
    (st.(expert_opinions)) (st.(draft_content)) (st.(draft_version))
    (st.(draft_id)) (st.(review_requested)) (st.(approved))
    (st.(revision_requested)) (st.(revision_feedback)) (Some v)
    (st.(published)) (st.(tweet_id)) (st.(tweet_url)) (st.(error)).

(** [state["published"] = v] *)
Definition set_published (v : bool) (st : State) : State :=
  mkState (st.(workflow_id)) (st.(current_step)) (st.(user_query))
    (st.(topic)) (st.(scope)) (st.(tone)) (st.(raw_tweets))
    (st.(filtered_tweets)) (st.(summary)) (st.(key_trends))
    (st.(expert_opinions)) (st.(draft_content)) (st.(draft_version))
    (st.(draft_id)) (st.(review_requested)) (st.(approved))
    (st.(revision_requested)) (st.(revision_feedback)) (st.(rejected))
    (Some v) (st.(tweet_id)) (st.(tweet_url)) (st.(error)).

(** [state["tweet_id"] = v] *)
Definition set_tweet_id (v : json) (st : State) : State :=
  mkState (st.(workflow_id)) (st.(current_step)) (st.(user_query))
    (st.(topic)) (st.(scope)) (st.(tone)) (st.(raw_tweets))
    (st.(filtered_tweets)) (st.(summary)) (st.(key_trends))
    (st.(expert_opinions)) (st.(draft_content)) (st.(draft_version))
    (st.(draft_id)) (st.(review_requested)) (st.(approved))
    (st.(revision_requested)) (st.(revision_feedback)) (st.(rejected))
    (st.(published)) (Some v) (st.(tweet_url)) (st.(error)).

(** [state["tweet_url"] = v] *)
Definition set_tweet_url (v : string) (st : State) : State :=
  mkState (st.(workflow_id)) (st.(current_step)) (st.(user_query))
    (st.(topic)) (st.(scope)) (st.(tone)) (st.(raw_tweets))
    (st.(filtered_tweets)) (st.(summary)) (st.(key_trends))
    (st.(expert_opinions)) (st.(draft_content)) (st.(draft_version))
    (st.(draft_id)) (st.(review_requested)) (st.(approved))
    (st.(revision_requested)) (st.(revision_feedback)) (st.(rejected))
    (st.(published)) (st.(tweet_id)) (Some v) (st.(error)).

(** [state["error"] = v] *)
Definition set_error (v : string) (st : State) : State :=
  mkState (st.(workflow_id)) (st.(current_step)) (st.(user_query))
    (st.(topic)) (st.(scope)) (st.(tone)) (st.(raw_tweets))
    (st.(filtered_tweets)) (st.(summary)) (st.(key_trends))
    (st.(expert_opinions)) (st.(draft_content)) (st.(draft_version))
    (st.(draft_id)) (st.(review_requested)) (st.(approved))
    (st.(revision_requested)) (st.(revision_feedback)) (st.(rejected))
    (st.(published)) (st.(tweet_id)) (st.(tweet_url)) (Some v).

(** [create_initial_state] *)
Definition create_initial_state (user_query : string) (workflow_id : Z) : State :=
  mkState (Some workflow_id) (Some START) (Some user_query)
    None None None None None None None None
    None (Some 0%Z) None
    None None None None None
    (Some false) None None
    None.

(** ** The outside world

    One [World] answers the external calls of one stage. The reply of the
    reasoning service does not depend on the prompt here: the properties
    below hold for every reply, hence for every prompt. *)
Record World : Type := mkWorld {
  (** [self.llm.invoke(messages).content], or the exception it raises *)
  llm_reply : res string;
  (** [json.loads]: the decoded value, or the message of its
      [JSONDecodeError] *)
  json_loads : string -> string + json;
  (** [float] on a string; [None] is its [ValueError] *)
  float_of_str : string -> option Q;
  (** [str(v)] for a value that is not a string *)
  py_repr : json -> string;
  (** [RedditClient.get_top_posts(subreddit, limit, time_filter)]: it turns
      every failure into an empty list *)
  get_top_posts : json -> Z -> json -> list Post;
  (** the posts the search across all of Reddit adds to [all_posts] *)
  search_all : json -> Z -> json -> list Post;
  (** whether [self.db_manager] is truthy *)
  db_manager : bool;
  db_create_intent : res unit;
  (** the session query of the filtering agent *)
  db_query_research_results : res unit;
  (** adding a [Draft] row: its id *)
  db_add_draft : res Z;
  (** [create_tweet(text)] and [response.data['id']] *)
  create_tweet : string -> res json;
  (** feedback row, published post and workflow status of an approval *)
  db_record_approval : res unit;
  db_update_workflow_status : res unit;
  db_add_feedback : res unit;
}.

(** [bool(state.get("workflow_id"))] *)
Definition has_workflow_id (state : State) : bool :=
  match workflow_id state with
  | Some z => negb (z =? 0)%Z
  | None => false
  end.

(** [workflow_id and self.db_manager] *)
Definition persists (w : World) (state : State) : bool :=
  has_workflow_id state && db_manager w.

(** [BaseAgent.invoke_llm] *)
Definition invoke_llm (w : World) (a : agent) : M string :=
  do _ <- tell (EvLLM a);
  match llm_reply w with
  | Ok text => ret text
  | Raise e =>
      raise (Exn RuntimeError ("LLM invocation failed: " +:+ exn_msg e))
  end.

Definition loads (w : World) (text : string) : M json :=
  match json_loads w text with
  | inr v => ret v
  | inl msg => raise (Exn JSONDecodeError msg)
  end.

(** ** Intent agent ([src/agents/intent_agent.py]) *)

(** The two handlers of [IntentAgent.process], applied to the state as it is
    when the exception arrives. *)
Definition intent_failed (state : State) (e : exn) : State :=
  if exn_kind_eqb (exn_type e) JSONDecodeError
  then set_error ("Failed to parse intent: " +:+ exn_msg e) state
  else set_error ("Intent extraction failed: " +:+ exn_msg e) state.

Definition intent_process (w : World) (state : State) : M State :=
  let query := default "" (user_query state) in
  if String.eqb query "" then
    ret (set_error "No user query provided" state)
  else
    try_except_all
      (do response <- invoke_llm w AIntent;
       do intent_data <- loads w response;
       do topic <- lift (py_get intent_data "topic" (JStr ""));
       do scope <- lift (py_get intent_data "scope" (JStr "latest"));
       do tone <- lift (py_get intent_data "tone" (JStr "informative"));
       let state' :=
         set_current_step INTENT_UNDERSTANDING
           (set_tone tone (set_scope scope (set_topic topic state))) in
       if persists w state then
         match db_create_intent w with
         | Ok _ => ret state'
         | Raise e => ret (intent_failed state' e)
         end
       else ret state')
      (fun e => ret (intent_failed state e)).

(** ** Reddit client ([src/utils/reddit_client.py]) *)

Definition subreddit_map : list (string * list string) :=
  [ ("ai", ["artificial"; "MachineLearning"; "OpenAI"; "ChatGPT"; "singularity"]);
    ("crypto", ["CryptoCurrency"; "Bitcoin"; "ethereum"; "CryptoMarkets"]);
    ("technology", ["technology"; "tech"; "gadgets"; "Futurology"]);
    ("politics", ["politics"; "worldnews"; "news"]);
    ("business", ["business"; "Economics"; "stocks"; "investing"]);
    ("science", ["science"; "EverythingScience"; "askscience"]);
    ("programming", ["programming"; "coding"; "learnprogramming"; "webdev"]);
    ("gaming", ["gaming"; "Games"; "pcgaming"]);
    ("sports", ["sports"; "nfl"; "nba"; "soccer"]) ].

Definition get_relevant_subreddits (topic : json) : res json :=
  match topic with
  | JStr t =>
      let topic_lower := lower t in
      let hit (entry : string * list string) :=
        contains (fst entry) topic_lower || contains topic_lower (fst entry) in
      Ok (match List.find hit subreddit_map with
          | Some (_, subreddits) => JArr (map JStr (take 3 subreddits))
          | None => JArr [JStr "news"; JStr "worldnews"]
          end)
  | _ => Raise (Exn AttributeError "object has no attribute 'lower'")
  end.

(** [len(v)] of a value a loop can visit *)
Definition py_len (items : list json) : Z := Z.of_nat (length items).

Definition search_posts (w : World) (query subreddits : json) (limit : Z)
    (time_filter : json) : res (list Post) :=
  if truthy subreddits then
    match py_iter subreddits with
    | Ok items =>
        Ok (flat_map
              (fun subreddit =>
                 get_top_posts w subreddit (limit / py_len items + 5)%Z
                   time_filter)
              items)
    | Raise e => Raise e
    end
  else Ok (search_all w query limit time_filter).

(** ** Research agent ([src/agents/research_agent.py]) *)

Definition has_key (k : string) (kv : list (string * json)) : bool :=
  match assoc_get k kv with Some _ => true | None => false end.

Definition fallback_strategy (topic : json) : M json :=
  do subreddits <- lift (get_relevant_subreddits topic);
  ret (JObj [ ("subreddits", subreddits); ("search_query", topic);
              ("time_filter", JStr "day") ]).

(** A decoded reply that is not a dictionary makes the key tests or the item
    assignments raise; that exception is not among the handled ones. *)
Definition _generate_research_strategy (w : World) (topic scope : json)
    : M json :=
  try_except
    (do response <- invoke_llm w AResearch;
     do strategy <- loads w response;
     match strategy with
     | JObj kv =>
         do kv1 <-
           (if negb (has_key "subreddits" kv)
               || negb (truthy (default JNull (assoc_get "subreddits" kv)))
            then do subreddits <- lift (get_relevant_subreddits topic);
                 ret (assoc_set "subreddits" subreddits kv)
            else ret kv);
         let kv2 :=
           if negb (has_key "search_query" kv1)
           then assoc_set "search_query" topic kv1 else kv1 in
         let kv3 :=
           if negb (has_key "time_filter" kv2)
           then assoc_set "time_filter" (JStr "day") kv2 else kv2 in
         ret (JObj kv3)
     | _ => raise (Exn TypeError "strategy is not a dictionary")
     end)
    [JSONDecodeError; KeyError]
    (fun _ => fallback_strategy topic).

(** [strategy[k]] *)
Definition py_item (d : json) (k : string) : res json :=
  match d with
  | JObj kv =>
      match assoc_get k kv with
      | Some v => Ok v
      | None => Raise (Exn KeyError k)
      end
  | _ => Raise (Exn TypeError "object is not subscriptable")
  end.

Definition _search_reddit (w : World) (strategy : json) : list Post :=
  let found :=
    match py_item strategy "search_query", py_item strategy "subreddits",
          py_item strategy "time_filter" with
    | Ok query, Ok subreddits, Ok time_filter =>
        search_posts w query subreddits 30 time_filter
    | Raise e, _, _ | _, Raise e, _ | _, _, Raise e => Raise e
    end in
  match found with
  | Ok posts => posts
  | Raise _ => []
  end.

Definition research_process (w : World) (state : State) : M State :=
  let topic := default (JStr "") (topic state) in
  let scope := default (JStr "latest") (scope state) in
  if negb (truthy topic) then
    ret (set_error "No topic provided for research" state)
  else
    do strategy <- _generate_research_strategy w topic scope;
    let posts := _search_reddit w strategy in
    let sorted_posts := sorted_desc engagement_score Z.ltb posts in
    (* every failure of [create_research_result] is skipped *)
    ret (set_current_step RESEARCH (set_raw_tweets sorted_posts state)).

(** ** Filtering agent ([src/agents/filtering_agent.py]) *)

(** The reply with its markdown fence removed, as [_score_posts] and the
    summarization agent do. *)
Definition unfence (response : string) : M string :=
  if contains "```json" response then
    do inner <- lift (split_1 "```json" response);
    ret (strip (split_0 "```" inner))
  else if contains "```" response then
    do inner <- lift (split_1 "```" response);
    ret (strip (split_0 "```" inner))
  else ret response.

(** One turn of the loop over [data.get("scores", [])]. A truthy [post_id]
    that is not a string is stored under a key that no post id, a string,
    is equal to: the mapping on strings is unchanged. *)
Definition score_item (w : World) (scores : gmap string Q) (item : json)
    : res (gmap string Q) :=
  match py_get item "post_id" JNull with
  | Raise e => Raise e
  | Ok pid =>
      match py_get item "score" (JFloat 0.5) with
      | Raise e => Raise e
      | Ok score =>
          if truthy pid then
            match py_float (float_of_str w) score with
            | Raise e => Raise e
            | Ok value =>
                match pid with
                | JStr id => Ok (<[id := value]> scores)
                | _ =>
                    if hashable pid then Ok scores
                    else Raise (Exn TypeError "unhashable type")
                end
            end
          else Ok scores
      end
  end.

Fixpoint score_items (w : World) (scores : gmap string Q) (items : list json)
    : res (gmap string Q) :=
  match items with
  | [] => Ok scores
  | item :: rest =>
      match score_item w scores item with
      | Ok scores' => score_items w scores' rest
      | Raise e => Raise e
      end
  end.

(** [{post['post_id']: 0.5 for post in posts}] *)
Definition neutral_scores (posts : list Post) : gmap string Q :=
  foldl (fun scores post => <[post_id post := 0.5%Q]> scores) ∅ posts.

Definition _score_posts (w : World) (topic : json) (posts : list Post)
    : M (gmap string Q) :=
  match posts with
  | [] => ret ∅
  | _ =>
      try_except
        (do response <- invoke_llm w AFilter;
         do response <- unfence response;
         do data <- loads w response;
         do listed <- lift (py_get data "scores" (JArr []));
         do items <- lift (py_iter listed);
         lift (score_items w ∅ items))
        [JSONDecodeError; KeyError; ValueError]
        (fun _ => ret (neutral_scores posts))
  end.

(** [max(p['engagement_score'] for p in raw_posts)], evaluated on a list
    that is not empty. *)
Definition max_engagement_of (raw_posts : list Post) : Z :=
  match map engagement_score raw_posts with
  | [] => 0
  | e :: rest => foldl Z.max e rest
  end.

(** [... or 1] *)
Definition or_1 (m : Z) : Z := if (m =? 0)%Z then 1 else m.

Definition Qltb (a b : Q) : bool := negb (Qle_bool b a).

(** The body of the scoring loop of [FilteringAgent.process]. *)
Definition score_post (relevance_scores : gmap string Q)
    (raw_posts : list Post) (post : Post) : ScoredPost :=
  let relevance := default 0.5%Q (relevance_scores !! post_id post) in
  let max_engagement := or_1 (max_engagement_of raw_posts) in
  let engagement_norm :=
    (inject_Z (engagement_score post) / inject_Z max_engagement)%Q in
  let combined_score := ((relevance * 0.6) + (engagement_norm * 0.4))%Q in
  mkScoredPost post relevance combined_score.

(** Steps 2 and 3 of [FilteringAgent.process]. *)
Definition rank_posts (top_k : Z) (relevance_scores : gmap string Q)
    (raw_posts : list Post) : list ScoredPost :=
  let scored_posts := map (score_post relevance_scores raw_posts) raw_posts in
  py_take top_k (sorted_desc combined_score Qltb scored_posts).

Definition filter_process (top_k : Z) (w : World) (state : State) : M State :=
  let topic := default (JStr "") (topic state) in
  match default [] (raw_tweets state) with
  | [] => ret (set_filtered_tweets [] state)
  | raw_posts =>
      do relevance_scores <- _score_posts w topic raw_posts;
      let filtered_posts := rank_posts top_k relevance_scores raw_posts in
      (* the session query is not guarded; a failing
         [create_filtered_content] is only reported *)
      do _ <- (if persists w state
               then lift (db_query_research_results w) else ret tt);
      ret (set_current_step FILTER (set_filtered_tweets filtered_posts state))
  end.

(** *** The ranking as Python computes it

    [rank_posts] computes with exact rationals. Python computes the scores
    in binary64 and sorts by the comparison of binary64: two scores that are
    equal as rationals may differ once rounded, and a score that is not a
    number compares false with every other. Here are steps 2 and 3 of
    [FilteringAgent.process] again, on binary64 numbers. *)

Set Warnings "-inexact-float".

(** An integer of at most 53 bits is a binary64 number, and the quotient of
    two of them is the one Python's [/] gives. *)
Definition float_of_int (z : Z) : float :=
  if (z <? 0)%Z
  then PrimFloat.opp (PrimFloat.of_uint63 (Uint63.of_Z (- z)))
  else PrimFloat.of_uint63 (Uint63.of_Z z).

Definition exact_int (z : Z) : Prop := (Z.abs z <= 2 ^ 53)%Z.

Record ScoredPost64 : Type := mkScoredPost64 {
  sp64_post : Post;
  relevance_score64 : float;
  combined_score64 : float;
}.

Definition score_post64 (relevance_scores : gmap string float)
    (raw_posts : list Post) (post : Post) : ScoredPost64 :=
  let relevance := default 0.5%float (relevance_scores !! post_id post) in
  let max_engagement := or_1 (max_engagement_of raw_posts) in
  let engagement_norm :=
    (float_of_int (engagement_score post) / float_of_int max_engagement)%float in
  let combined_score := ((relevance * 0.6) + (engagement_norm * 0.4))%float in
  mkScoredPost64 post relevance combined_score.

Definition rank_posts64 (top_k : Z) (relevance_scores : gmap string float)
    (raw_posts : list Post) : list ScoredPost64 :=
  let scored_posts := map (score_post64 relevance_scores raw_posts) raw_posts in
  py_take top_k (sorted_desc combined_score64 PrimFloat.ltb scored_posts).

(** [a] is below [b] in the order the sort uses. *)
Definition below64 (a b : ScoredPost64) : bool :=
  PrimFloat.ltb (combined_score64 a) (combined_score64 b).

(** ** Summarization agent ([src/agents/summarization_agent.py]) *)

(** [len(v)] succeeds on strings, lists and dictionaries only. *)
Definition has_len (v : json) : bool :=
  match v with
  | JStr _ | JArr _ | JObj _ => true
  | _ => false
  end.

(** [json] is imported inside the [try] block, after the call of the
    reasoning service: when that call raises, naming [json.JSONDecodeError]
    in the [except] clause raises in turn. *)
Definition summarize_process (w : World) (state : State) : M State :=
  match default [] (filtered_tweets state) with
  | [] => ret (set_error "No filtered posts to summarize" state)
  | _ =>
      do response <-
        try_except_all (invoke_llm w ASummarize)
          (fun _ => raise (Exn UnboundLocalError
                       "cannot access local variable 'json'"));
      do response <- unfence response;
      try_except
        (do insights <- loads w response;
         do summary <- lift (py_get insights "summary" (JStr ""));
         do key_trends <- lift (py_get insights "key_trends" (JArr []));
         do expert_opinions <-
           lift (py_get insights "expert_opinions" (JArr []));
         let state' :=
           set_current_step SUMMARIZE
             (set_expert_opinions expert_opinions
                (set_key_trends key_trends (set_summary summary state))) in
         if has_len key_trends then
           (* a failing [create_insight] is only reported *)
           ret state'
         else raise (Exn TypeError "object has no len()"))
        [JSONDecodeError; KeyError]
        (fun e =>
           ret (set_error ("Failed to generate insights: " +:+ exn_msg e)
                  state))
  end.

(** ** Drafting agent ([src/agents/drafting_agent.py]) *)

(** [self.max_length] *)
Definition max_length : nat := 280.

Definition dquote : ascii := ascii_of_nat 34.
Definition squote : ascii := "'"%char.

(** [if s.startswith(q) and s.endswith(q): s = s[1:-1]] *)
Definition unquote (q : ascii) (s : string) : string :=
  if startswith_char q s && endswith_char q s then str_inner s else s.

(** [if len(s) > self.max_length: s = s[:self.max_length-3] + "..."] *)
Definition truncate (s : string) : string :=
  if (max_length <? String.length s)%nat
  then str_take (max_length - 3) s +:+ "..."
  else s.

(** [v[:n]] as text; a list is sliced and then printed. *)
Definition py_prefix_text (w : World) (n : nat) (v : json) : res string :=
  match v with
  | JStr s => Ok (str_take n s)
  | JArr l => Ok (py_repr w (JArr (take n l)))
  | _ => Raise (Exn TypeError "object is not subscriptable")
  end.

(** [v.replace(' ', '')] *)
Definition py_without_spaces (v : json) : res string :=
  match v with
  | JStr s => Ok (remove_char " "%char s)
  | _ => Raise (Exn AttributeError "object has no attribute 'replace'")
  end.

(** [key_trends[:3]] and the loop over it, which build [trends_text]. *)
Definition check_trends (key_trends : json) : res unit :=
  match key_trends with
  | JArr _ | JStr _ => Ok tt
  | _ => Raise (Exn TypeError "object is not subscriptable")
  end.

Definition _create_draft (w : World) (topic summary key_trends tone : json)
    : M string :=
  do _ <- lift (check_trends key_trends);
  try_except_all
    (do reply <- invoke_llm w ADraft;
     let tweet := strip reply in
     let tweet := unquote dquote tweet in
     let tweet := unquote squote tweet in
     ret (truncate tweet))
    (fun _ =>
       do head <- lift (py_prefix_text w 250 summary);
       do tag <- lift (py_without_spaces topic);
       let fallback := head +:+ " #" +:+ tag in
       ret (str_take max_length fallback)).

(** The guarded insertion of a [Draft] row; [draft_id] is set when it
    succeeds. *)
Definition save_draft (w : World) (state state' : State) : State :=
  if persists w state then
    match db_add_draft w with
    | Ok id => set_draft_id id state'
    | Raise _ => state'
    end
  else state'.

Definition draft_process (w : World) (state : State) : M State :=
  let topic := default (JStr "") (topic state) in
  let summary := default (JStr "") (summary state) in
  let key_trends := default (JArr []) (key_trends state) in
  let tone := default (JStr "informative") (tone state) in
  if negb (truthy summary) then
    ret (set_error "No summary available for drafting" state)
  else
    do draft <- _create_draft w topic summary key_trends tone;
    let state' :=
      set_current_step DRAFT
        (set_draft_version 1 (set_draft_content draft state)) in
    ret (save_draft w state state').

Definition create_revision (w : World) (state : State) (feedback : string)
    : M State :=
  let version := (default 1 (draft_version state) + 1)%Z in
  try_except_all
    (do reply <- invoke_llm w ADraft;
     let revised_draft := strip reply in
     let revised_draft := unquote dquote revised_draft in
     let revised_draft := truncate revised_draft in
     let state' :=
       set_draft_version version (set_draft_content revised_draft state) in
     ret (save_draft w state state'))
    (fun e =>
       ret (set_error ("Failed to create revision: " +:+ exn_msg e) state)).

(** ** Publishing agent ([src/agents/publishing_agent.py]) *)

Definition request_human_review (state : State) : M State :=
  ret (set_current_step HUMAN_REVIEW (set_review_requested true state)).

Definition py_str (w : World) (v : json) : string :=
  match v with
  | JStr s => s
  | _ => py_repr w v
  end.

Definition has_draft_id (state : State) : bool :=
  match draft_id state with
  | Some z => negb (z =? 0)%Z
  | None => false
  end.

(** The handler of [handle_approval]; its own update of the workflow row is
    not guarded. *)
Definition publishing_failed (w : World) (state : State) (e : exn) : M State :=
  let state' := set_error ("Publishing failed: " +:+ exn_msg e) state in
  do _ <- (if persists w state
           then lift (db_update_workflow_status w) else ret tt);
  ret state'.

Definition handle_approval (w : World) (state : State) : M State :=
  let draft := default "" (draft_content state) in
  do _ <- tell EvTweet;
  match create_tweet w draft with
  | Raise e => publishing_failed w state e
  | Ok id =>
      let tweet_url := "https://twitter.com/user/status/" +:+ py_str w id in
      let recorded :=
        if has_draft_id state && db_manager w
        then db_record_approval w else Ok tt in
      match recorded with
      | Raise e => publishing_failed w state e
      | Ok _ =>
          ret (set_current_step PUBLISH
                 (set_tweet_url tweet_url
                    (set_tweet_id id (set_published true state))))
      end
  end.

Definition handle_rejection (w : World) (state : State) (reason : string)
    : M State :=
  do _ <- (if has_draft_id state && db_manager w
           then do _ <- lift (db_add_feedback w);
                lift (db_update_workflow_status w)
           else ret tt);
  ret (set_rejected true state).

Definition handle_revision_request (w : World) (state : State)
    (feedback : string) : M State :=
  do _ <- (if has_draft_id state && db_manager w
           then lift (db_add_feedback w) else ret tt);
  ret (set_revision_feedback feedback (set_revision_requested true state)).

(** ** The workflow graph ([src/workflow/graph.py])

    A node receives the state and returns it updated; the graph then follows
    the edge that leaves the node. [fuel] is the bound LangGraph puts on the
    number of nodes of one run. Each visit of a node meets its own [World].

    [_build_graph] compiles [StateGraph(WorkflowState)]: the graph holds one
    channel for each key that [WorkflowState] declares
    ([src/workflow/state.py]), and only those. What the caller or a node
    puts under another key is not written to a channel, so neither the next
    node, nor [_should_publish], nor the caller of [invoke] sees it. *)

Inductive route : Type := to_publish | to_revise | to_end.

(** [bool(state.get(k))] for a flag, which holds [True] or [False] when it
    is present. *)
Definition flag (o : option bool) : bool := default false o.

Definition _should_publish (state : State) : route :=
  if flag (approved state) then to_publish
  else if flag (revision_requested state) then to_revise
  else to_end.

(** [self.filtering_agent = FilteringAgent(db_manager=db_manager, top_k=5)] *)
Definition graph_top_k : Z := 5.

Definition run_node (w : World) (n : node) (state : State) : M State :=
  match n with
  | NIntent => intent_process w state
  | NResearch => research_process w state
  | NFilter => filter_process graph_top_k w state
  | NSummarize => summarize_process w state
  | NDraft => draft_process w state
  | NReview => request_human_review state
  | NPublish => handle_approval w state
  end.

(** The edges of [_build_graph]; [None] is [END]. *)
Definition next_node (n : node) (state : State) : option node :=
  match n with
  | NIntent => Some NResearch
  | NResearch => Some NFilter
  | NFilter => Some NSummarize
  | NSummarize => Some NDraft
  | NDraft => Some NReview
  | NReview =>
      match _should_publish state with
      | to_publish => Some NPublish
      | to_revise => Some NDraft
      | to_end => None
      end
  | NPublish => None
  end.

(** The keys of [WorkflowState]. It declares neither [expert_opinions],
    [draft_id], [review_requested], [approved], [revision_requested],
    [revision_feedback], [rejected] nor [tweet_id]. *)
Definition declared (st : State) : State :=
  mkState (st.(workflow_id)) (st.(current_step)) (st.(user_query))
    (st.(topic)) (st.(scope)) (st.(tone)) (st.(raw_tweets))
    (st.(filtered_tweets)) (st.(summary)) (st.(key_trends)) None
    (st.(draft_content)) (st.(draft_version)) None
    None None None None None
    (st.(published)) None (st.(tweet_url)) (st.(error)).

(** The run from node [n] on, [state] being what the channels hold. *)
Fixpoint invoke_from (fuel : nat) (worlds : nat -> World) (step : nat)
    (n : node) (state : State) : M State :=
  match fuel with
  | O => raise (Exn GraphRecursionError "recursion limit reached")
  | S fuel' =>
      do _ <- tell (EvNode n);
      do state' <- run_node (worlds step) n state;
      let channels := declared state' in
      match next_node n channels with
      | Some n' => invoke_from fuel' worlds (S step) n' channels
      | None => ret channels
      end
  end.

(** [self.graph.invoke(initial_state)], from the entry point. *)
Definition graph_invoke (fuel : nat) (worlds : nat -> World) (state : State)
    : M State :=
  invoke_from fuel worlds 0 NIntent (declared state).

(** [WorkflowGraph.run]; [workflow_id] is the id of the row
    [create_workflow] made. *)
Definition run (fuel : nat) (worlds : nat -> World) (user_query : string)
    (workflow_id : Z) : M State :=
  graph_invoke fuel worlds (create_initial_state user_query workflow_id).

(** The nodes a log went through, in order. *)
Definition nodes_of (log : list event) : list node :=
  omap (fun ev => match ev with EvNode n => Some n | _ => None end) log.

(** The agents whose reasoning service a log called, in order. *)
Definition llm_calls_of (log : list event) : list agent :=
  omap (fun ev => match ev with EvLLM a => Some a | _ => None end) log.

(** ** Reading a run *)

(** The state a stage returned, if it returned. *)
Definition returned {A} (m : M A) : option A :=
  match snd m with
  | Ok a => Some a
  | Raise _ => None
  end.

(** The posts of one engagement score. *)
Definition with_engagement (v : Z) (p : Post) : bool :=
  (engagement_score p =? v)%Z.


(** A stage log is quiet: entering a node is logged by the graph only. *)
Definition quiet (log : list event) : Prop := nodes_of log = [].

(** [m] has a quiet log, and what it returns satisfies [P]. *)
Definition ensures {A} (P : A -> Prop) (m : M A) : Prop :=
  quiet (fst m) /\ forall a, snd m = Ok a -> P a.

Definition anything {A} (_ : A) : Prop := True.

(** The nodes the unconditional edges lead through, from [n] on. *)
Definition forward_path (n : node) : list node :=
  match n with
  | NIntent => [NIntent; NResearch; NFilter; NSummarize; NDraft; NReview]
  | NResearch => [NResearch; NFilter; NSummarize; NDraft; NReview]
  | NFilter => [NFilter; NSummarize; NDraft; NReview]
  | NSummarize => [NSummarize; NDraft; NReview]
  | NDraft => [NDraft; NReview]
  | NReview => [NReview]
  | NPublish => [NPublish]
  end.

(** ** Fixtures

    Worlds for concrete runs, in the manner of the mocks of
    [tests/test_intent_agent.py]: a reasoning service with a fixed reply, a
    decoder given by its graph on the texts used, a database that accepts
    every write, an empty Reddit and a Twitter that refuses to post. *)

Definition mock_world (reply : res string) (decode : string -> string + json)
    (top_posts : json -> list Post) : World :=
  mkWorld reply decode (fun _ => None) (fun _ => "?")
    (fun subreddit _ _ => top_posts subreddit) (fun _ _ _ => [])
    true (Ok tt) (Ok tt) (Ok 1%Z)
    (fun _ => Raise (Exn ExternalError "403 Forbidden"))
    (Ok tt) (Ok tt) (Ok tt).

Definition no_posts (subreddit : json) : list Post := [].

(** A decoder that knows one text. *)
Definition decode_only (text : string) (v : json) (s : string) : string + json :=
  if String.eqb s text then inr v else inl "Expecting value".

(** A reply that the fixtures decode to a full intent. *)
Definition ai_intent : json :=
  JObj [ ("topic", JStr "AI"); ("scope", JStr "today");
         ("tone", JStr "informative") ].

Definition tech_post : Post :=
  mkPost "t3_1" "New chip" "New chip" "alice" "technology" 10 5 20.

Definition tech_strategy : json :=
  JObj [ ("subreddits", JArr [JStr "technology"; JStr "Technology"]) ].

(** Reddit, reached under two spellings of one subreddit. *)
Definition tech_world : World :=
  mock_world (Ok "strategy") (decode_only "strategy" tech_strategy)
    (fun _ => [tech_post]).

Definition tech_state : State :=
  set_topic (JStr "technology") (create_initial_state "tech news" 1).

Definition post_a : Post :=
  _parse_post (mkRawPost "a" "First" "" "ann" "news" 10 5).

Definition post_b : Post :=
  _parse_post (mkRawPost "b" "Second" "" "bob" "news" 0 0).

(** The reasoning service answers with text that is not JSON. *)
Definition undecodable_world : World :=
  mock_world (Ok "Sure! Here are the scores.") (fun _ => inl "Expecting value")
    no_posts.

Definition scenario_b_state : State :=
  set_raw_tweets [post_a; post_b]
    (set_topic (JStr "news") (create_initial_state "news" 1)).

(** The scores as a bare JSON list, without the enclosing object. *)
Definition bare_list_world : World :=
  mock_world (Ok "scores")
    (decode_only "scores"
       (JArr [ JObj [("post_id", JStr "a"); ("score", JFloat 0.9)];
               JObj [("post_id", JStr "b"); ("score", JFloat 0.2)] ]))
    no_posts.

(** An object whose first score is [null]. *)
Definition null_score_world : World :=
  mock_world (Ok "scores")
    (decode_only "scores"
       (JObj [ ("scores",
                JArr [ JObj [("post_id", JStr "a"); ("score", JNull)] ]) ]))
    no_posts.

(** A reply of 300 characters. *)
Definition long_reply : string := string_of_list_ascii (repeat "x"%char 300).

Definition long_reply_world : World :=
  mock_world (Ok long_reply) (fun _ => inl "Expecting value") no_posts.

Definition tweet_world : World :=
  mock_world (Ok "AI is moving fast. #AI") (fun _ => inl "Expecting value")
    no_posts.

(** The state of a workflow whose first draft is under review and for which
    a revision was requested. *)
Definition revision_state : State :=
  set_revision_requested true
    (set_draft_version 1
       (set_draft_content "AI is here. #AI"
          (set_summary (JStr "AI is moving fast.")
             (set_topic (JStr "AI") (create_initial_state "news on AI" 1))))).

(** A reasoning service that is down. *)
Definition down_world : World :=
  mock_world (Raise (Exn ExternalError "connection refused"))
    (fun _ => inl "Expecting value") no_posts.

(** The intent is decoded, but its row cannot be stored. *)
Definition unstored_intent_world : World :=
  mkWorld (Ok "intent") (decode_only "intent" ai_intent) (fun _ => None)
    (fun _ => "?") (fun _ _ _ => []) (fun _ _ _ => [])
    true (Raise (Exn ExternalError "database is locked")) (Ok tt) (Ok 1%Z)
    (fun _ => Raise (Exn ExternalError "403 Forbidden"))
    (Ok tt) (Ok tt) (Ok tt).

(** The intent stage meets [unstored_intent_world], the later stages a
    reasoning service whose replies cannot be decoded. *)
Definition unstored_intent_run (step : nat) : World :=
  match step with
  | O => unstored_intent_world
  | S _ => undecodable_world
  end.

(** ** Settings ([src/config/settings.py]) *)

Definition upper_ascii (c : ascii) : ascii :=
  let n := nat_of_ascii c in
  if ((97 <=? n) && (n <=? 122))%nat then ascii_of_nat (n - 32) else c.

Fixpoint upper (s : string) : string :=
  match s with
  | EmptyString => ""
  | String c s' => String (upper_ascii c) (upper s')
  end.

Definition valid_levels : list string :=
  ["DEBUG"; "INFO"; "WARNING"; "ERROR"; "CRITICAL"].

(** [Settings.validate_log_level] *)
Definition validate_log_level (v : string) : res string :=
  let v_upper := upper v in
  if negb (existsb (String.eqb v_upper) valid_levels)
  then Raise (Exn ValueError "Log level must be one of the valid levels")
  else Ok v_upper.

(** ** More fixtures *)

(** The item a well-formed relevance reply has for one post. *)
Definition score_entry (entry : string * Q) : json :=
  JObj [("post_id", JStr (fst entry)); ("score", JFloat (snd entry))].

(** A reasoning service whose reply decodes to [v]. *)
Definition reply_world (v : json) : World :=
  mock_world (Ok "reply") (decode_only "reply" v) no_posts.

(** Twitter accepts the post and gives it the id "42". *)
Definition posting_world : World :=
  mkWorld (Ok "reply") (fun _ => inl "Expecting value") (fun _ => None)
    (fun _ => "?") (fun _ _ _ => []) (fun _ _ _ => [])
    true (Ok tt) (Ok tt) (Ok 1%Z)
    (fun _ => Ok (JStr "42"))
    (Ok tt) (Ok tt) (Ok tt).

(** A workflow at review whose draft was approved. *)
Definition approved_state : State :=
  mkState (Some 1%Z) (Some DRAFT) (Some "news on AI")
    (Some (JStr "AI")) None None None None
    (Some (JStr "AI is moving fast.")) None None
    (Some "AI is here. #AI") (Some 1%Z) (Some 7%Z)
    None (Some true) None None None
    (Some false) None None
    None.

(** A computation that makes no external call. *)
Definition silent {A} (m : M A) : Prop := fst m = [].

(** A state whose two ranked posts wait for their summary. *)
Definition ranked_state : State :=
  set_filtered_tweets (rank_posts 5 ∅ [post_a; post_b]) scenario_b_state.

(** A state with a summary to draft from. *)
Definition summarized_state : State :=
  set_summary (JStr "AI is moving fast.")
    (set_topic (JStr "AI news") (create_initial_state "news on AI" 1)).

(** Twitter has accepted the post, but the approval cannot be stored. *)
Definition unrecorded_world : World :=
  mkWorld (Ok "reply") (fun _ => inl "Expecting value") (fun _ => None)
    (fun _ => "?") (fun _ _ _ => []) (fun _ _ _ => [])
    true (Ok tt) (Ok tt) (Ok 1%Z)
    (fun _ => Ok (JStr "42"))
    (Raise (Exn ExternalError "database is locked")) (Ok tt) (Ok tt).

(** The flags the review branch reads are those of [state]. *)
Definition same_flags (state state' : State) : Prop :=
  approved state' = approved state
  /\ revision_requested state' = revision_requested state.

(** Two candidates whose combined scores are both 7/10 as rationals: the
    first on engagement, the second on relevance. *)
Definition tie_a : Post := mkPost "a" "First" "First" "ann" "news" 20 0 20.
Definition tie_b : Post := mkPost "b" "Second" "Second" "bob" "news" 8 0 8.

Definition tie_scores : gmap string Q := {[ "a" := 0.5%Q; "b" := 0.9%Q ]}.
Definition tie_scores64 : gmap string float :=
  {[ "a" := 0.5%float; "b" := 0.9%float ]}.

(** ** Revising a draft *)

(** The user asks for one revision after another, as the revision
    branch of [demo_complete_pipeline.py] does once: each request goes to
    [create_revision], on the state the request before it left. Each call
    meets its own [World]. *)
Fixpoint revisions (requests : list (World * string)) (state : State)
    : M State :=
  match requests with
  | [] => ret state
  | (w, feedback) :: rest =>
      do revised <- create_revision w state feedback;
      revisions rest revised
  end.

(** The reasoning service answers. *)
Definition answers (w : World) : bool :=
  match llm_reply w with
  | Ok _ => true
  | Raise _ => false
  end.

(** The number of requests at which the reasoning service answers. *)
Definition answered (requests : list (World * string)) : Z :=
  Z.of_nat (length (List.filter (fun request => answers (fst request)) requests)).

(** The version of a workflow that has drafted once at most: 1 with a
    draft, 0 without. *)
Definition first_version (state : State) : option Z :=
  match draft_content state with
  | Some _ => Some 1%Z
  | None => Some 0%Z
  end.

(** * Properties *)

(** ** The stable descending sort *)

Section StableSortFacts.
Context {A K : Type} (key : A -> K) (ltb : K -> K -> bool).

Lemma insert_desc_perm (x : A) (l : list A) :
  Permutation (x :: l) (insert_desc key ltb x l).
Proof.
  induction l as [|y l IH]; simpl; [reflexivity|].
  destruct (ltb (key x) (key y)); [|reflexivity].
  rewrite perm_swap. now constructor.
Qed.

Lemma sorted_desc_perm (l : list A) :
  Permutation l (sorted_desc key ltb l).
Proof.
  induction l as [|x l IH]; simpl; [reflexivity|].
  rewrite <- insert_desc_perm. now constructor.
Qed.

Lemma sorted_desc_length (l : list A) :
  length (sorted_desc key ltb l) = length l.
Proof. symmetry. apply Permutation_length, sorted_desc_perm. Qed.

Lemma sorted_desc_In (x : A) (l : list A) :
  In x (sorted_desc key ltb l) <-> In x l.
Proof.
  split; apply Permutation_in;
    [symmetry|]; apply sorted_desc_perm.
Qed.

(** Elements that one class [p] of equal keys gathers keep their order. *)
Lemma insert_desc_filter (p : A -> bool) (x : A) (l : list A) :
  (forall a b, p a = true -> p b = true -> ltb (key a) (key b) = false) ->
  List.filter p (insert_desc key ltb x l) = List.filter p (x :: l).
Proof.
  intros Hp. induction l as [|y l IH]; [reflexivity|].
  cbn [insert_desc]. destruct (ltb (key x) (key y)) eqn:Hxy; [|reflexivity].
  cbn [List.filter] in *. rewrite IH.
  destruct (p x) eqn:Hx, (p y) eqn:Hy; try reflexivity.
  rewrite (Hp x y Hx Hy) in Hxy. discriminate.
Qed.

Lemma sorted_desc_stable (p : A -> bool) (l : list A) :
  (forall a b, p a = true -> p b = true -> ltb (key a) (key b) = false) ->
  List.filter p (sorted_desc key ltb l) = List.filter p l.
Proof.
  intros Hp. induction l as [|x l IH]; [reflexivity|].
  cbn [sorted_desc foldr]. fold (sorted_desc key ltb l).
  rewrite insert_desc_filter by exact Hp.
  cbn [List.filter]. now rewrite IH.
Qed.

Section Ordered.
Hypothesis ltb_asym : forall a b, ltb a b = true -> ltb b a = false.
Hypothesis geb_trans :
  forall a b c, ltb a b = false -> ltb b c = false -> ltb a c = false.

Lemma insert_desc_sorted (x : A) (l : list A) :
  StronglySorted (not_below key ltb) l ->
  StronglySorted (not_below key ltb) (insert_desc key ltb x l).
Proof.
  induction 1 as [|y l Hl IH Hy]; simpl.
  - repeat constructor.
  - destruct (ltb (key x) (key y)) eqn:Hxy.
    + constructor; [exact IH|].
      apply List.Forall_forall. intros z Hz.
      apply (Permutation_in _ (Permutation_sym (insert_desc_perm x l))) in Hz.
      destruct Hz as [<-|Hz]; [now apply ltb_asym|].
      rewrite List.Forall_forall in Hy. now apply Hy.
    + constructor; [now constructor|].
      constructor; [exact Hxy|].
      apply List.Forall_forall. intros z Hz.
      rewrite List.Forall_forall in Hy.
      exact (geb_trans _ _ _ Hxy (Hy z Hz)).
Qed.

Lemma sorted_desc_sorted (l : list A) :
  StronglySorted (not_below key ltb) (sorted_desc key ltb l).
Proof.
  induction l as [|x l IH]; simpl; [constructor|].
  now apply insert_desc_sorted.
Qed.
End Ordered.

(** The same, when the comparison is known to be an order on the keys of the
    list only. *)
Lemma insert_desc_sorted_on (x : A) (l : list A) :
  (forall y, In y l ->
             ltb (key x) (key y) = true -> ltb (key y) (key x) = false) ->
  (forall y z, In y l -> In z l ->
               ltb (key x) (key y) = false -> ltb (key y) (key z) = false ->
               ltb (key x) (key z) = false) ->
  StronglySorted (not_below key ltb) l ->
  StronglySorted (not_below key ltb) (insert_desc key ltb x l).
Proof.
  intros Hasym Htrans Hl. induction Hl as [|y l Hl IH Hy]; simpl.
  - repeat constructor.
  - destruct (ltb (key x) (key y)) eqn:Hxy.
    + constructor.
      * apply IH.
        -- intros z Hz. apply Hasym. now right.
        -- intros z z' Hz Hz'. apply Htrans; now right.
      * apply List.Forall_forall. intros z Hz.
        apply (Permutation_in _ (Permutation_sym (insert_desc_perm x l))) in Hz.
        destruct Hz as [<-|Hz]; [apply Hasym; [now left|exact Hxy]|].
        rewrite List.Forall_forall in Hy. now apply Hy.
    + constructor; [now constructor|].
      constructor; [exact Hxy|].
      apply List.Forall_forall. intros z Hz.
      rewrite List.Forall_forall in Hy.
      apply (Htrans y z); [now left|now right|exact Hxy|now apply Hy].
Qed.

Lemma sorted_desc_sorted_on (l : list A) :
  (forall a b, In a l -> In b l ->
               ltb (key a) (key b) = true -> ltb (key b) (key a) = false) ->
  (forall a b c, In a l -> In b l -> In c l ->
                 ltb (key a) (key b) = false -> ltb (key b) (key c) = false ->
                 ltb (key a) (key c) = false) ->
  StronglySorted (not_below key ltb) (sorted_desc key ltb l).
Proof.
  induction l as [|x l IH]; intros Hasym Htrans; simpl; [constructor|].
  apply insert_desc_sorted_on.
  - intros y Hy. apply (proj1 (sorted_desc_In y l)) in Hy.
    apply Hasym; [now left|now right].
  - intros y z Hy Hz. apply (proj1 (sorted_desc_In y l)) in Hy.
    apply (proj1 (sorted_desc_In z l)) in Hz.
    apply Htrans; [now left|now right|now right].
  - apply IH.
    + intros a b Ha Hb. apply Hasym; now right.
    + intros a b c Ha Hb Hc. apply Htrans; now right.
Qed.
End StableSortFacts.

(** Two sorts whose comparisons agree make the same moves. *)
Lemma sorted_desc_map {A B K K' : Type} (f : A -> B)
    (key : A -> K) (ltb : K -> K -> bool)
    (key' : B -> K') (ltb' : K' -> K' -> bool) (l : list A) :
  (forall a b, ltb' (key' (f a)) (key' (f b)) = ltb (key a) (key b)) ->
  sorted_desc key' ltb' (map f l) = map f (sorted_desc key ltb l).
Proof.
  intros Hcmp. induction l as [|x l IH]; [reflexivity|].
  cbn [map sorted_desc foldr].
  fold (sorted_desc key' ltb' (map f l)). fold (sorted_desc key ltb l).
  rewrite IH. generalize (sorted_desc key ltb l) as s.
  induction s as [|y s IHs]; [reflexivity|].
  cbn [map insert_desc]. rewrite Hcmp.
  destruct (ltb (key x) (key y)); [|reflexivity].
  cbn [map]. now rewrite IHs.
Qed.

Lemma py_take_length {A} (k : Z) (l : list A) :
  (0 <= k)%Z ->
  Z.of_nat (length (py_take k l)) = Z.min k (Z.of_nat (length l)).
Proof.
  intros Hk. unfold py_take, slice_stop.
  destruct (Z.ltb_spec k 0); [lia|].
  rewrite length_take. lia.
Qed.


(** ** Strings *)

Lemma str_take_length (n : nat) (s : string) :
  String.length (str_take n s) = Nat.min n (String.length s).
Proof.
  revert s. induction n as [|n IH]; intros [|c s]; simpl; auto.
Qed.

Lemma str_app_length (s t : string) :
  String.length (s +:+ t) = (String.length s + String.length t)%nat.
Proof. induction s as [|c s IH]; simpl; auto. Qed.

Lemma truncate_length (s : string) :
  (String.length (truncate s) <= max_length)%nat.
Proof.
  unfold truncate. destruct (Nat.ltb_spec max_length (String.length s)); [|lia].
  rewrite str_app_length, str_take_length. unfold max_length in *.
  simpl String.length. lia.
Qed.

Lemma truncate_long (s : string) :
  (max_length < String.length s)%nat ->
  truncate s = str_take 277 s +:+ "..." /\ String.length (truncate s) = 280%nat.
Proof.
  intros Hs. unfold truncate.
  destruct (Nat.ltb_spec max_length (String.length s)); [|lia].
  split; [reflexivity|].
  rewrite str_app_length, str_take_length. unfold max_length in *.
  simpl String.length. lia.
Qed.

Lemma truncate_short (s : string) :
  (String.length s <= max_length)%nat -> truncate s = s.
Proof.
  intros Hs. unfold truncate.
  destruct (Nat.ltb_spec max_length (String.length s)); [lia|reflexivity].
Qed.

(** ** Reading the result of a stage *)

Lemma bind_Ok {A B} (m : M A) (k : A -> M B) (log : list event) (b : B) :
  bind m k = (log, Ok b) ->
  exists l1 a l2, m = (l1, Ok a) /\ k a = (l2, Ok b) /\ log = l1 ++ l2.
Proof.
  unfold bind. destruct m as [l1 [a|e]]; [|discriminate].
  destruct (k a) as [l2 r] eqn:Hk. intros [= <- ->]. eauto 6.
Qed.

Lemma lift_Ok {A} (r : res A) (log : list event) (a : A) :
  lift r = (log, Ok a) -> r = Ok a /\ log = [].
Proof. unfold lift. now intros [= <- ->]. Qed.

Lemma ret_Ok {A} (x : A) (log : list event) (a : A) :
  ret x = (log, Ok a) -> x = a /\ log = [].
Proof. unfold ret. now intros [= <- ->]. Qed.

(** ** The review branch *)

(** C10. In the review branch approval wins over a revision request: the
    graph goes from review to publish exactly when [approved] is set, back
    to draft exactly when [approved] is unset and [revision_requested] is
    set, and to the end exactly when both are unset. *)
Theorem review_branch_precedence (state : State) :
  (next_node NReview state = Some NPublish <-> flag (approved state) = true)
  /\ (next_node NReview state = Some NDraft <->
        flag (approved state) = false
        /\ flag (revision_requested state) = true)
  /\ (next_node NReview state = None <->
        flag (approved state) = false
        /\ flag (revision_requested state) = false).
Proof.
  unfold next_node, _should_publish.
  destruct (flag (approved state)), (flag (revision_requested state));
    repeat split; intros; try discriminate; try tauto;
    match goal with H : _ /\ _ |- _ => destruct H; discriminate end.
Qed.

(** ** The intent stage *)

(** C9, as the code has it. When the query is the empty string (or is
    missing) the intent stage records "No user query provided" and returns
    without any call of the reasoning service. A query made of whitespace
    only is not rejected here, see [intent_whitespace_query_calls_llm]. *)
Theorem intent_empty_query_fails_before_llm (w : World) (state : State) :
  default "" (user_query state) = "" ->
  intent_process w state
  = ([], Ok (set_error "No user query provided" state)).
Proof.
  intros Hq. unfold intent_process. now rewrite Hq.
Qed.

Lemma intent_empty_query_witness :
  default "" (user_query (create_initial_state "" 1)) = ""
  /\ intent_process (mock_world (Ok "{}") (decode_only "{}" (JObj [])) no_posts)
       (create_initial_state "" 1)
     = ([], Ok (set_error "No user query provided"
                  (create_initial_state "" 1))).
Proof.
  split; [reflexivity|].
  apply intent_empty_query_fails_before_llm. reflexivity.
Defined.

(** C9 fails on a query of three spaces: its [strip] is empty, yet the
    reasoning service is called and no error is recorded. *)
Lemma intent_whitespace_query_calls_llm :
  let w := mock_world (Ok "intent") (decode_only "intent" ai_intent) no_posts in
  let m := intent_process w (create_initial_state "   " 1) in
  strip "   " = ""
  /\ llm_calls_of (fst m) = [AIntent]
  /\ (error <$> returned m) = Some None
  /\ (topic <$> returned m) = Some (Some (JStr "AI")).
Proof. vm_compute. repeat split. Qed.

(** C8, as the code has it. When the reply decodes to a JSON object and the
    intent row is stored without an exception, the stage records no error
    whatever the object holds: a missing topic becomes the empty string, a
    missing scope "latest" and a missing tone "informative". *)
Theorem intent_defaults (w : World) (state : State) (text : string)
    (kv : list (string * json)) :
  default "" (user_query state) <> "" ->
  llm_reply w = Ok text ->
  json_loads w text = inr (JObj kv) ->
  (persists w state = false \/ db_create_intent w = Ok tt) ->
  exists state',
    intent_process w state = ([EvLLM AIntent], Ok state')
    /\ topic state' = Some (default (JStr "") (assoc_get "topic" kv))
    /\ scope state' = Some (default (JStr "latest") (assoc_get "scope" kv))
    /\ tone state' = Some (default (JStr "informative") (assoc_get "tone" kv))
    /\ error state' = error state.
Proof.
  intros Hq Hllm Hjson Hdb.
  unfold intent_process, invoke_llm, loads.
  destruct (String.eqb_spec (default "" (user_query state)) "") as [|_];
    [contradiction|].
  rewrite Hllm. cbn. rewrite Hjson. cbn.
  destruct Hdb as [-> | Hdb].
  - eexists. split; [reflexivity|]. cbn.
    destruct (assoc_get "topic" kv), (assoc_get "scope" kv),
      (assoc_get "tone" kv); auto.
  - destruct (persists w state); rewrite ?Hdb;
      (eexists; split; [reflexivity|]; cbn;
       destruct (assoc_get "topic" kv), (assoc_get "scope" kv),
         (assoc_get "tone" kv); auto).
Qed.

Lemma intent_defaults_witness :
  let w := mock_world (Ok "reply") (decode_only "reply" (JObj [("topic", JStr "AI")]))
             no_posts in
  exists state',
    intent_process w (create_initial_state "news on AI" 1)
    = ([EvLLM AIntent], Ok state')
    /\ topic state' = Some (JStr "AI")
    /\ scope state' = Some (JStr "latest")
    /\ tone state' = Some (JStr "informative")
    /\ error state' = None.
Proof.
  intros w.
  apply (intent_defaults w (create_initial_state "news on AI" 1) "reply"
           [("topic", JStr "AI")]).
  - discriminate.
  - reflexivity.
  - reflexivity.
  - right. reflexivity.
Defined.

(** C8 fails on a reply that decodes to the empty object: the topic is
    absent, and the stage stores the empty string and records no error. *)
Lemma intent_missing_topic_is_no_error :
  let w := mock_world (Ok "{}") (decode_only "{}" (JObj [])) no_posts in
  let m := intent_process w (create_initial_state "news on AI" 1) in
  fst m = [EvLLM AIntent]
  /\ (topic <$> returned m) = Some (Some (JStr ""))
  /\ (error <$> returned m) = Some None.
Proof. vm_compute. repeat split. Qed.

(** ** The research stage *)

Lemma StronglySorted_weaken {A} (R R' : A -> A -> Prop) (l : list A) :
  (forall a b, R a b -> R' a b) -> StronglySorted R l -> StronglySorted R' l.
Proof.
  intros HR. induction 1 as [|x l Hl IH Hx]; constructor; [exact IH|].
  eapply List.Forall_impl; [|exact Hx]. auto.
Qed.

(** C7, as the code has it. Whenever the strategy step returns, the
    research stage puts on the state the posts it fetched, all of them,
    sorted by descending [engagement_score] with ties in the order of
    discovery. Nothing is removed: a post fetched twice is listed twice, see
    [research_keeps_duplicates]. *)
Theorem research_candidates_sorted (w : World) (state : State)
    (log : list event) (strategy : json) :
  truthy (default (JStr "") (topic state)) = true ->
  _generate_research_strategy w (default (JStr "") (topic state))
    (default (JStr "latest") (scope state)) = (log, Ok strategy) ->
  exists candidates,
    research_process w state
    = (log, Ok (set_current_step RESEARCH (set_raw_tweets candidates state)))
    /\ Permutation (_search_reddit w strategy) candidates
    /\ StronglySorted
         (fun a b => (engagement_score b <= engagement_score a)%Z) candidates
    /\ forall v, List.filter (with_engagement v) candidates
                 = List.filter (with_engagement v) (_search_reddit w strategy).
Proof.
  intros Htopic Hstrategy.
  exists (sorted_desc engagement_score Z.ltb (_search_reddit w strategy)).
  split; [|split; [|split]].
  - unfold research_process. rewrite Htopic, Hstrategy. cbn.
    now rewrite app_nil_r.
  - apply sorted_desc_perm.
  - eapply StronglySorted_weaken; [|apply sorted_desc_sorted].
    + unfold not_below. intros a b Hab. lia.
    + intros a b. lia.
    + intros a b c. lia.
  - intros v. apply sorted_desc_stable.
    unfold with_engagement. intros a b Ha Hb. lia.
Qed.

Lemma research_candidates_sorted_witness :
  exists candidates,
    research_process tech_world tech_state
    = ([EvLLM AResearch],
       Ok (set_current_step RESEARCH (set_raw_tweets candidates tech_state)))
    /\ Permutation [tech_post; tech_post] candidates.
Proof.
  destruct (research_candidates_sorted tech_world tech_state [EvLLM AResearch]
              (JObj [ ("subreddits", JArr [JStr "technology"; JStr "Technology"]);
                      ("search_query", JStr "technology");
                      ("time_filter", JStr "day") ]))
    as (candidates & Hrun & Hperm & _).
  - reflexivity.
  - reflexivity.
  - exists candidates. split; [exact Hrun|exact Hperm].
Defined.

(** C7 fails on deduplication: the strategy names one subreddit under two
    spellings, its top post is fetched twice, and the candidate list on the
    state holds it twice. *)
Lemma research_keeps_duplicates :
  (raw_tweets <$> returned (research_process tech_world tech_state))
  = Some (Some [tech_post; tech_post])
  /\ ~ List.NoDup (map post_id [tech_post; tech_post]).
Proof.
  split; [vm_compute; reflexivity|].
  intros Hnd. apply List.NoDup_cons_iff in Hnd as [Hin _]. apply Hin. now left.
Qed.

(** ** The ranking filter *)




Lemma rank_posts_length (top_k : Z) (scores : gmap string Q)
    (raw_posts : list Post) :
  (0 <= top_k)%Z ->
  Z.of_nat (length (rank_posts top_k scores raw_posts))
  = Z.min top_k (Z.of_nat (length raw_posts)).
Proof.
  intros Hk. unfold rank_posts.
  rewrite py_take_length by exact Hk.
  now rewrite sorted_desc_length, length_map.
Qed.

(** C4. For a [top_k] that is not negative the filter stage keeps exactly
    [min(top_k, number of candidates)] candidates: it returns them whenever
    relevance scoring returns and the lookup of the stored candidates does
    not fail, and whatever it returns has that length. For an empty
    candidate list it returns the empty list at once, with no call of the
    reasoning service. *)
Theorem filter_keeps_min_k (top_k : Z) (w : World) (state : State) :
  (0 <= top_k)%Z ->
  let candidates := default [] (raw_tweets state) in
  let kept := Z.min top_k (Z.of_nat (length candidates)) in
  (candidates = [] ->
     filter_process top_k w state = ([], Ok (set_filtered_tweets [] state)))
  /\ (forall log scores,
        candidates <> [] ->
        _score_posts w (default (JStr "") (topic state)) candidates
        = (log, Ok scores) ->
        persists w state = false \/ db_query_research_results w = Ok tt ->
        exists ranked,
          filter_process top_k w state
          = (log, Ok (set_current_step FILTER
                        (set_filtered_tweets ranked state)))
          /\ Z.of_nat (length ranked) = kept)
  /\ (forall log state',
        filter_process top_k w state = (log, Ok state') ->
        exists ranked,
          filtered_tweets state' = Some ranked
          /\ Z.of_nat (length ranked) = kept).
Proof.
  intros Hk candidates kept. subst kept candidates.
  unfold filter_process.
  destruct (default [] (raw_tweets state)) as [|p rest] eqn:Hraw.
  - split; [reflexivity|]. split; [congruence|].
    intros log state' [= <- <-]. exists []. split; [reflexivity|].
    cbn [length]. lia.
  - split; [discriminate|]. split.
    + intros log scores _ Hscores Hdb. rewrite Hscores.
      exists (rank_posts top_k scores (p :: rest)).
      split; [|now apply rank_posts_length].
      destruct Hdb as [-> | Hdb]; cbn.
      * now rewrite !app_nil_r.
      * destruct (persists w state); rewrite ?Hdb; cbn;
          now rewrite !app_nil_r.
    + intros log state' Hrun.
      apply bind_Ok in Hrun as (l1 & scores & l2 & _ & Hrest & _).
      apply bind_Ok in Hrest as (l3 & [] & l4 & _ & Hret & _).
      apply ret_Ok in Hret as [<- _].
      exists (rank_posts top_k scores (p :: rest)).
      split; [reflexivity|now apply rank_posts_length].
Qed.

Lemma filter_keeps_min_k_witness :
  exists ranked,
    filtered_tweets
      <$> returned (filter_process 1 undecodable_world scenario_b_state)
    = Some (Some ranked)
    /\ Z.of_nat (length ranked) = 1%Z.
Proof.
  destruct (filter_keeps_min_k 1 undecodable_world scenario_b_state)
    as (_ & Hrun & _); [lia|].
  destruct (Hrun [EvLLM AFilter] (neutral_scores [post_a; post_b]))
    as (ranked & Heq & Hlen).
  - discriminate.
  - reflexivity.
  - right. reflexivity.
  - exists ranked. rewrite Heq. split; [reflexivity|exact Hlen].
Defined.



(** *** The neutral fallback of relevance scoring *)

Lemma neutral_scores_lookup (posts : list Post) (id : string) :
  neutral_scores posts !! id = Some 0.5%Q \/ neutral_scores posts !! id = None.
Proof.
  unfold neutral_scores.
  assert (forall acc : gmap string Q,
             (acc !! id = Some 0.5%Q \/ acc !! id = None) ->
             let out := foldl (fun scores post => <[post_id post := 0.5%Q]> scores)
                          acc posts in
             out !! id = Some 0.5%Q \/ out !! id = None) as Hgen.
  { induction posts as [|p posts IH]; intros acc Hacc; [exact Hacc|].
    cbn [foldl]. apply IH.
    destruct (decide (post_id p = id)) as [->|Hne].
    - left. apply lookup_insert_eq.
    - now rewrite lookup_insert_ne. }
  apply Hgen. right. apply lookup_empty.
Qed.

Lemma neutral_scores_In (posts : list Post) (p : Post) :
  In p posts -> neutral_scores posts !! post_id p = Some 0.5%Q.
Proof.
  unfold neutral_scores.
  assert (forall acc : gmap string Q,
             In p posts \/ acc !! post_id p = Some 0.5%Q ->
             foldl (fun scores post => <[post_id post := 0.5%Q]> scores)
               acc posts !! post_id p = Some 0.5%Q) as Hgen.
  { induction posts as [|q posts IH]; intros acc Hacc; cbn [foldl].
    - destruct Hacc as [[]|Hacc]. exact Hacc.
    - apply IH. destruct Hacc as [[->|Hin]|Hacc].
      + right. apply lookup_insert_eq.
      + now left.
      + right. destruct (decide (post_id q = post_id p)) as [->|Hne].
        * apply lookup_insert_eq.
        * now rewrite lookup_insert_ne. }
  intros Hin. apply Hgen. now left.
Qed.

(** With a positive denominator and equal relevance, comparing combined
    scores is comparing engagement scores. *)
Lemma combined_order_is_engagement_order (r : Q) (d a b : Z) :
  (0 < d)%Z ->
  Qltb (r * 0.6 + inject_Z a / inject_Z d * 0.4)
       (r * 0.6 + inject_Z b / inject_Z d * 0.4)
  = (a <? b)%Z.
Proof.
  intros Hd. unfold Qltb.
  assert ((r * 0.6 + inject_Z b / inject_Z d * 0.4
           <= r * 0.6 + inject_Z a / inject_Z d * 0.4)%Q <-> (b <= a)%Z) as Hiff.
  { assert (0 < inject_Z d)%Q as Hdq by (unfold Qlt; cbn; lia).
    assert (0 < / inject_Z d * 0.4)%Q as Hpos.
    { apply Qmult_lt_0_compat; [now apply Qinv_lt_0_compat|reflexivity]. }
    rewrite Zle_Qle.
    set (k := (/ inject_Z d * 0.4)%Q) in *.
    assert (forall x, (inject_Z x / inject_Z d * 0.4 == k * inject_Z x)%Q) as Hk.
    { intros x. unfold k, Qdiv. ring. }
    rewrite !Hk, Qplus_le_r, Qmult_le_l by exact Hpos. reflexivity. }
  destruct (Z.ltb_spec a b) as [Hab|Hab].
  - destruct (Qle_bool _ _) eqn:Hle; [|reflexivity].
    apply Qle_bool_iff, Hiff in Hle. lia.
  - destruct (Qle_bool _ _) eqn:Hle; [reflexivity|].
    apply Hiff, Qle_bool_iff in Hab. congruence.
Qed.

(** When the reply cannot be decoded, relevance scoring returns the neutral
    mapping: every candidate has relevance 0.5, and with a greatest
    engagement that is not negative the ranking is the stable ranking by
    descending engagement. *)
Lemma filter_decode_failure_is_neutral (top_k : Z) (w : World) (topic : json)
    (posts : list Post) (text text' msg : string) :
  posts <> [] ->
  llm_reply w = Ok text ->
  unfence text = ret text' ->
  json_loads w text' = inl msg ->
  _score_posts w topic posts = ([EvLLM AFilter], Ok (neutral_scores posts))
  /\ (forall p, relevance_score (score_post (neutral_scores posts) posts p)
                = 0.5%Q)
  /\ ((0 <= max_engagement_of posts)%Z ->
      rank_posts top_k (neutral_scores posts) posts
      = py_take top_k
          (map (score_post (neutral_scores posts) posts)
             (sorted_desc engagement_score Z.ltb posts))).
Proof.
  intros Hne Hllm Hfence Hjson.
  assert (forall p, relevance_score (score_post (neutral_scores posts) posts p)
                    = 0.5%Q) as Hrel.
  { intros p. unfold score_post. cbn.
    now destruct (neutral_scores_lookup posts (post_id p)) as [-> | ->]. }
  split; [|split; [exact Hrel|]].
  - unfold _score_posts, invoke_llm, loads.
    destruct posts as [|p0 rest]; [congruence|].
    rewrite Hllm. cbn. rewrite Hfence. cbn. rewrite Hjson. reflexivity.
  - intros Hmax. unfold rank_posts. f_equal.
    apply sorted_desc_map. intros a b.
    pose proof (Hrel a) as Ha. pose proof (Hrel b) as Hb.
    unfold score_post in *. cbn in *. rewrite Ha, Hb.
    apply combined_order_is_engagement_order.
    unfold or_1. destruct (Z.eqb_spec (max_engagement_of posts) 0); lia.
Qed.

(** *** Replies of an unexpected shape *)

(** C3 does not hold of the code. A relevance reply that decodes to a JSON
    list, or whose score is [null], cannot be read as a mapping from ids to
    scores; the stage then neither records an error nor falls back to
    relevance 0.5: [_score_posts] raises an [AttributeError], or a
    [TypeError], that its [except] clause does not list, and the exception
    leaves [FilteringAgent.process] and the workflow run. *)
Theorem filter_raises_on_unexpected_shape :
  filter_process 5 bare_list_world scenario_b_state
  = ([EvLLM AFilter],
     Raise (Exn AttributeError "object has no attribute 'get'"))
  /\ filter_process 5 null_score_world scenario_b_state
     = ([EvLLM AFilter],
        Raise (Exn TypeError
                 "float() argument must be a string or a real number"))
  /\ nodes_of (fst (invoke_from 25 (fun _ => bare_list_world) 2 NFilter
                      scenario_b_state)) = [NFilter]
  /\ returned (invoke_from 25 (fun _ => bare_list_world) 2 NFilter
                 scenario_b_state) = None.
Proof. repeat split; vm_compute; reflexivity. Qed.

(** ** The drafting stage *)

Arguments str_take : simpl never.
Arguments truncate : simpl never.

Lemma save_draft_content (w : World) (state state' : State) :
  draft_content (save_draft w state state') = draft_content state'.
Proof.
  unfold save_draft.
  destruct (persists w state); [|reflexivity].
  now destruct (db_add_draft w).
Qed.

Lemma save_draft_version (w : World) (state state' : State) :
  draft_version (save_draft w state state') = draft_version state'.
Proof.
  unfold save_draft.
  destruct (persists w state); [|reflexivity].
  now destruct (db_add_draft w).
Qed.

Lemma create_draft_length (w : World) (topic summary key_trends tone : json)
    (log : list event) (draft : string) :
  _create_draft w topic summary key_trends tone = (log, Ok draft) ->
  (String.length draft <= 280)%nat.
Proof.
  unfold _create_draft, invoke_llm.
  destruct (check_trends key_trends) as [[]|e]; [|discriminate]. cbn.
  destruct (llm_reply w) as [reply|e]; cbn.
  - intros [= _ <-]. apply truncate_length.
  - destruct (py_prefix_text w 250 summary) as [head|e1]; [|discriminate].
    destruct (py_without_spaces topic) as [tag|e2]; [|discriminate]. cbn.
    intros [= _ <-]. rewrite str_take_length. unfold max_length. lia.
Qed.

(** C6. Every draft the drafting agent produces is at most 280 characters
    long: the draft of [_create_draft], generated or built from the fallback
    template, the draft [process] puts on the state, which is the very draft
    [_create_draft] returned, and the draft [create_revision] puts on the
    state, which is the cleaned reply cut by the same rule. A generated
    draft or a revision of more than 280 characters becomes its first 277
    characters followed by "...", which is 280 characters; one of at most
    280 characters is kept as it is. The fallback is cut to its first 280
    characters. *)
Theorem draft_length_bound (w : World) (state : State) :
  (forall topic summary key_trends tone log draft,
     _create_draft w topic summary key_trends tone = (log, Ok draft) ->
     (String.length draft <= 280)%nat)
  /\ (forall log state',
        draft_process w state = (log, Ok state') ->
        state' = set_error "No summary available for drafting" state
        \/ exists log' draft,
             _create_draft w (default (JStr "") (topic state))
               (default (JStr "") (summary state))
               (default (JArr []) (key_trends state))
               (default (JStr "informative") (tone state))
             = (log', Ok draft)
             /\ draft_content state' = Some draft
             /\ (String.length draft <= 280)%nat)
  /\ (forall feedback log state',
        create_revision w state feedback = (log, Ok state') ->
        match llm_reply w with
        | Ok reply =>
            let revised := unquote dquote (strip reply) in
            exists draft,
              draft_content state' = Some draft
              /\ draft
                 = (if (280 <? String.length revised)%nat
                    then str_take 277 revised +:+ "..."
                    else revised)
              /\ (String.length draft <= 280)%nat
              /\ ((280 < String.length revised)%nat ->
                  String.length draft = 280%nat)
        | Raise _ => exists msg, state' = set_error msg state
        end)
  /\ (forall reply topic summary key_trends tone,
        llm_reply w = Ok reply ->
        check_trends key_trends = Ok tt ->
        let generated := unquote squote (unquote dquote (strip reply)) in
        _create_draft w topic summary key_trends tone
        = ([EvLLM ADraft],
           Ok (if (280 <? String.length generated)%nat
               then str_take 277 generated +:+ "..."
               else generated))
        /\ ((280 < String.length generated)%nat ->
            String.length (str_take 277 generated +:+ "...") = 280%nat))
  /\ (forall e topic summary key_trends tone head tag,
        llm_reply w = Raise e ->
        check_trends key_trends = Ok tt ->
        py_prefix_text w 250 summary = Ok head ->
        py_without_spaces topic = Ok tag ->
        _create_draft w topic summary key_trends tone
        = ([EvLLM ADraft], Ok (str_take 280 (head +:+ " #" +:+ tag)))).
Proof.
  split; [|split; [|split; [|split]]].
  - intros *. apply create_draft_length.
  - intros log state'. unfold draft_process.
    destruct (truthy (default (JStr "") (summary state))); cbn [negb].
    + intros Hrun.
      apply bind_Ok in Hrun as (l1 & draft & l2 & Hdraft & Hret & _).
      apply ret_Ok in Hret as [<- _]. right. exists l1, draft.
      split; [exact Hdraft|].
      split; [now rewrite save_draft_content|].
      eapply create_draft_length, Hdraft.
    + intros [= _ <-]. now left.
  - intros feedback log state'. unfold create_revision, invoke_llm.
    destruct (llm_reply w) as [reply|e]; cbn.
    + intros [= _ <-]. eexists.
      split; [now rewrite save_draft_content|].
      split; [reflexivity|].
      split; [apply truncate_length|].
      intros Hlong. now apply truncate_long.
    + intros [= _ <-]. eauto.
  - intros reply topic summary key_trends tone Hllm Htrends generated.
    unfold _create_draft, invoke_llm. rewrite Htrends, Hllm. cbn.
    fold generated. split; [reflexivity|].
    intros Hlong. destruct (truncate_long generated Hlong) as [Heq Hlen].
    now rewrite Heq in Hlen.
  - intros e topic summary key_trends tone head tag Hllm Htrends Hhead Htag.
    unfold _create_draft, invoke_llm. rewrite Htrends, Hllm. cbn.
    now rewrite Hhead, Htag.
Qed.

Lemma draft_length_bound_witness :
  let cut := str_take 277 long_reply +:+ "..." in
  String.length long_reply = 300%nat
  /\ String.length cut = 280%nat
  /\ _create_draft long_reply_world (JStr "AI") (JStr "A summary.") (JArr [])
       (JStr "informative")
     = ([EvLLM ADraft], Ok cut)
  /\ (draft_content <$> returned (draft_process long_reply_world summarized_state))
     = Some (Some cut)
  /\ (draft_content
        <$> returned (create_revision long_reply_world revision_state "shorter"))
     = Some (Some cut).
Proof.
  intros cut.
  split; [reflexivity|].
  destruct (draft_length_bound long_reply_world summarized_state)
    as (_ & Hprocess & _ & Hgenerated & _).
  destruct (draft_length_bound long_reply_world revision_state)
    as (_ & _ & Hrevision & _).
  assert (280 < String.length
            (unquote squote (unquote dquote (strip long_reply))))%nat
    as Hlong by (vm_compute; lia).
  destruct (Hgenerated long_reply (JStr "AI news")
              (JStr "AI is moving fast.") (JArr []) (JStr "informative")
              eq_refl eq_refl) as [Hdraft Hlen].
  split; [exact (Hlen Hlong)|].
  split.
  { apply (Hgenerated long_reply (JStr "AI") (JStr "A summary.") (JArr [])
             (JStr "informative") eq_refl eq_refl). }
  split.
  - destruct (draft_process long_reply_world summarized_state)
      as [log [state'|e]] eqn:Hrun; [|vm_compute in Hrun; discriminate].
    destruct (Hprocess log state' eq_refl) as [Hfail|(l & d & Hd & Hc & _)].
    + vm_compute in Hrun. subst state'. discriminate.
    + unfold returned. cbn. rewrite Hc. do 2 f_equal.
      change (default (JStr "") (topic summarized_state))
        with (JStr "AI news") in Hd.
      change (default (JStr "") (summary summarized_state))
        with (JStr "AI is moving fast.") in Hd.
      change (default (JArr []) (key_trends summarized_state))
        with (JArr []) in Hd.
      change (default (JStr "informative") (tone summarized_state))
        with (JStr "informative") in Hd.
      rewrite Hdraft in Hd. now injection Hd as _ <-.
  - destruct (create_revision long_reply_world revision_state "shorter")
      as [log [state'|e]] eqn:Hrun; [|vm_compute in Hrun; discriminate].
    specialize (Hrevision "shorter" log state' Hrun).
    change (llm_reply long_reply_world) with (@Ok string long_reply)
      in Hrevision.
    cbv zeta in Hrevision.
    destruct Hrevision as (d & Hc & Hd & _).
    unfold returned. cbn. rewrite Hc, Hd. reflexivity.
Defined.

(** *** Versions *)

(** [create_revision] moves the version one up when the reasoning service
    answers, and leaves it when it fails. *)
Lemma create_revision_version (w : World) (state : State) (feedback : string)
    (log : list event) (state' : State) :
  create_revision w state feedback = (log, Ok state') ->
  match llm_reply w with
  | Ok _ => draft_version state'
            = Some (default 1 (draft_version state) + 1)%Z
  | Raise _ => draft_version state' = draft_version state
               /\ error state' <> None
  end.
Proof.
  unfold create_revision, invoke_llm.
  destruct (llm_reply w) as [reply|e]; cbn; intros [= _ <-].
  - now rewrite save_draft_version.
  - split; [reflexivity|discriminate].
Qed.

(** ** The workflow graph *)

Lemma nodes_of_app (l1 l2 : list event) :
  nodes_of (l1 ++ l2) = nodes_of l1 ++ nodes_of l2.
Proof. apply omap_app. Qed.

Lemma quiet_app (l1 l2 : list event) : quiet l1 -> quiet l2 -> quiet (l1 ++ l2).
Proof. unfold quiet. intros H1 H2. now rewrite nodes_of_app, H1, H2. Qed.

Section Ensures.
Context {A B : Type}.

Lemma ensures_ret (P : A -> Prop) (a : A) : P a -> ensures P (ret a).
Proof. intros H. split; [reflexivity|]. now intros a' [= <-]. Qed.

Lemma ensures_raise (P : A -> Prop) (e : exn) : ensures P (raise e).
Proof. split; [reflexivity|]. intros a'. discriminate. Qed.

Lemma ensures_lift (r : res A) : ensures anything (lift r).
Proof. split; [reflexivity|]. now intros. Qed.

Lemma ensures_weaken (P : A -> Prop) (m : M A) :
  ensures P m -> ensures anything m.
Proof. intros [Hq _]. split; [exact Hq|]. now intros. Qed.

Lemma ensures_bind (P : B -> Prop) (m : M A) (k : A -> M B) :
  ensures anything m -> (forall a, ensures P (k a)) -> ensures P (bind m k).
Proof.
  intros [Hq _] Hk. unfold bind. destruct m as [l1 [a|e]]; cbn in *.
  - destruct (Hk a) as [Hq2 HP]. destruct (k a) as [l2 r]; cbn in *.
    split; [now apply quiet_app|exact HP].
  - split; [exact Hq|]. intros b. discriminate.
Qed.

Lemma ensures_try_except (P : A -> Prop) (body : M A)
    (kinds : list exn_kind) (handler : exn -> M A) :
  ensures P body -> (forall e, ensures P (handler e)) ->
  ensures P (try_except body kinds handler).
Proof.
  intros [Hq HP] Hh. unfold try_except. destruct body as [l1 [a|e]]; cbn in *.
  - split; [exact Hq|exact HP].
  - destruct (existsb _ kinds).
    + destruct (Hh e) as [Hq2 HP2]. destruct (handler e) as [l2 r]; cbn in *.
      split; [now apply quiet_app|exact HP2].
    + split; [exact Hq|]. intros a. discriminate.
Qed.

Lemma ensures_try_except_all (P : A -> Prop) (body : M A)
    (handler : exn -> M A) :
  ensures P body -> (forall e, ensures P (handler e)) ->
  ensures P (try_except_all body handler).
Proof.
  intros [Hq HP] Hh. unfold try_except_all.
  destruct body as [l1 [a|e]]; cbn in *.
  - split; [exact Hq|exact HP].
  - destruct (Hh e) as [Hq2 HP2]. destruct (handler e) as [l2 r]; cbn in *.
    split; [now apply quiet_app|exact HP2].
Qed.
End Ensures.

Lemma ensures_invoke_llm (P : string -> Prop) (w : World) (a : agent) :
  (forall text, P text) -> ensures P (invoke_llm w a).
Proof.
  intros HP. unfold invoke_llm. destruct (llm_reply w); cbn.
  - split; [reflexivity|]. intros. apply HP.
  - split; [reflexivity|]. intros. apply HP.
Qed.

Lemma ensures_loads (w : World) (text : string) :
  ensures anything (loads w text).
Proof.
  unfold loads. destruct (json_loads w text);
    [apply ensures_raise|now apply ensures_ret].
Qed.

Lemma ensures_tell_tweet : ensures anything (tell EvTweet).
Proof. split; [reflexivity|]. now intros. Qed.

(** One step through the shape of a stage. *)
Ltac ensures_step :=
  lazymatch goal with
  | |- ensures _ (bind _ _) => apply ensures_bind; [|intros ?]
  | |- ensures _ (try_except _ _ _) => apply ensures_try_except; [|intros ?]
  | |- ensures _ (try_except_all _ _) =>
      apply ensures_try_except_all; [|intros ?]
  | |- ensures _ (raise _) => apply ensures_raise
  | |- ensures _ (lift _) => apply ensures_lift
  | |- ensures _ (loads _ _) => apply ensures_loads
  | |- ensures _ (tell EvTweet) => apply ensures_tell_tweet
  | |- ensures _ (invoke_llm _ _) => apply ensures_invoke_llm; now intros
  | |- ensures _ (ret _) => apply ensures_ret
  | |- ensures _ (match ?x with _ => _ end) => destruct x
  end.

Ltac ensures_walk := cbv zeta; repeat ensures_step; try exact I.

Lemma ensures_unfence (response : string) : ensures anything (unfence response).
Proof. unfold unfence. ensures_walk. Qed.

Lemma ensures_generate_research_strategy (w : World) (topic scope : json) :
  ensures anything (_generate_research_strategy w topic scope).
Proof. unfold _generate_research_strategy, fallback_strategy. ensures_walk. Qed.

Lemma ensures_score_posts (w : World) (topic : json) (posts : list Post) :
  ensures anything (_score_posts w topic posts).
Proof.
  unfold _score_posts. ensures_walk. apply ensures_unfence.
Qed.

Lemma ensures_create_draft (w : World) (topic summary key_trends tone : json) :
  ensures anything (_create_draft w topic summary key_trends tone).
Proof. unfold _create_draft. ensures_walk. Qed.

Lemma save_draft_error (w : World) (state state' : State) :
  error (save_draft w state state') = error state'.
Proof.
  unfold save_draft.
  destruct (persists w state); [|reflexivity].
  now destruct (db_add_draft w).
Qed.

Lemma intent_failed_error (state : State) (e : exn) :
  error (intent_failed state e) <> None.
Proof. unfold intent_failed. now destruct (exn_kind_eqb _ _). Qed.

(** No stage clears [error], and no stage logs a node. *)
Lemma run_node_keeps_error (w : World) (n : node) (state : State) :
  ensures (fun state' => error state <> None -> error state' <> None)
    (run_node w n state).
Proof.
  destruct n; cbn [run_node].
  - unfold intent_process. ensures_walk;
      solve [ now cbn | intros _; apply intent_failed_error ].
  - unfold research_process. ensures_walk;
      solve [ now cbn | apply ensures_generate_research_strategy ].
  - unfold filter_process. ensures_walk;
      solve [ now cbn | apply ensures_score_posts ].
  - unfold summarize_process. ensures_walk;
      solve [ now cbn | apply ensures_unfence ].
  - unfold draft_process. ensures_walk;
      solve [ now cbn | apply ensures_create_draft
            | now rewrite save_draft_error ].
  - unfold request_human_review. ensures_walk. now cbn.
  - unfold handle_approval, publishing_failed. ensures_walk; now cbn.
Qed.

Lemma invoke_from_Ok (fuel : nat) (worlds : nat -> World) (step : nat)
    (n : node) (state : State) (log : list event) (state' : State) :
  invoke_from fuel worlds step n state = (log, Ok state') ->
  exists fuel' l1 state1 l2,
    fuel = S fuel'
    /\ run_node (worlds step) n state = (l1, Ok state1)
    /\ log = EvNode n :: l1 ++ l2
    /\ match next_node n (declared state1) with
       | Some n' =>
           invoke_from fuel' worlds (S step) n' (declared state1)
           = (l2, Ok state')
       | None => l2 = [] /\ state' = declared state1
       end.
Proof.
  destruct fuel as [|fuel']; [discriminate|]. cbn [invoke_from]. intros Hrun.
  apply bind_Ok in Hrun as (l0 & [] & l & Htell & Hrun & ->).
  apply bind_Ok in Hrun as (l1 & state1 & l2 & Hnode & Hnext & ->).
  injection Htell as <-. cbv zeta in Hnext.
  exists fuel', l1, state1, l2. repeat split; [exact Hnode|].
  destruct (next_node n (declared state1)); [exact Hnext|].
  apply ret_Ok in Hnext as [-> ->]. now split.
Qed.

(** C1, as the code has it. The edges intent, research, filter, summarize,
    draft, review carry no test of [error]: in a run that completes, started
    at any node and with [error] already set, the graph still enters every
    node the unconditional edges lead to, up to review. No stage clears
    [error]: the final state has it set, though a later stage may have
    replaced its text and written other keys. *)
Theorem error_does_not_stop_graph (fuel : nat) (worlds : nat -> World)
    (step : nat) (n : node) (state : State) (log : list event)
    (state' : State) :
  error state <> None ->
  invoke_from fuel worlds step n state = (log, Ok state') ->
  (exists rest, nodes_of log = forward_path n ++ rest)
  /\ error state' <> None.
Proof.
  revert step n state log. induction fuel as [|fuel IH];
    intros step n state log Herr Hrun; [discriminate|].
  apply invoke_from_Ok in Hrun
    as (fuel' & l1 & state1 & l2 & [= <-] & Hnode & -> & Hnext).
  destruct (run_node_keeps_error (worlds step) n state) as [Hquiet Hkeep].
  rewrite Hnode in Hquiet, Hkeep. cbn in Hquiet, Hkeep.
  specialize (Hkeep state1 eq_refl Herr).
  change (EvNode n :: l1 ++ l2) with ([EvNode n] ++ l1 ++ l2).
  rewrite !nodes_of_app, Hquiet. cbn [nodes_of omap app].
  change (error state1) with (error (declared state1)) in Hkeep.
  destruct (next_node n (declared state1)) as [n'|] eqn:Hedge.
  - destruct (IH _ _ _ _ Hkeep Hnext) as [[rest Hrest] Herr'].
    split; [|exact Herr']. rewrite Hrest.
    destruct n; cbn in Hedge;
      try (injection Hedge as <-; exists rest; reflexivity);
      discriminate.
  - destruct Hnext as [-> ->]. split; [|exact Hkeep].
    destruct n; cbn in Hedge; try discriminate; exists []; reflexivity.
Qed.

Lemma error_does_not_stop_graph_witness :
  let state := set_error "No user query provided" (create_initial_state "" 1) in
  let log := [EvNode NResearch; EvNode NFilter; EvNode NSummarize;
              EvNode NDraft; EvNode NReview] in
  let state' :=
    set_current_step HUMAN_REVIEW
      (set_error "No summary available for drafting"
         (set_filtered_tweets [] state)) in
  error state <> None
  /\ invoke_from 24 (fun _ => down_world) 1 NResearch state = (log, Ok state')
  /\ (exists rest, nodes_of log = forward_path NResearch ++ rest)
  /\ error state' <> None.
Proof.
  intros state log state'.
  assert (invoke_from 24 (fun _ => down_world) 1 NResearch state
          = (log, Ok state')) as Hrun by (vm_compute; reflexivity).
  split; [discriminate|]. split; [exact Hrun|].
  apply (error_does_not_stop_graph 24 (fun _ => down_world) 1 NResearch
           state log state').
  - discriminate.
  - exact Hrun.
Defined.

(** C1 fails on the run of an empty query: the intent stage sets [error],
    and the graph goes on through research, filter, summarize, draft and
    review; the state it returns is not the one the intent stage left. It
    fails too when the intent row cannot be stored: [error] is set by the
    intent stage, and the research stage then calls the reasoning
    service. *)
Lemma graph_runs_stages_after_error :
  let failed := set_error "No user query provided" (create_initial_state "" 1) in
  let m := run 25 (fun _ => down_world) "" 1 in
  let m' := run 25 unstored_intent_run "news on AI" 1 in
  intent_process down_world (create_initial_state "" 1) = ([], Ok failed)
  /\ nodes_of (fst m)
     = [NIntent; NResearch; NFilter; NSummarize; NDraft; NReview]
  /\ (error <$> returned m) = Some (Some "No summary available for drafting")
  /\ (current_step <$> returned m) = Some (Some HUMAN_REVIEW)
  /\ returned m <> Some failed
  /\ (error <$> returned (intent_process unstored_intent_world
                            (create_initial_state "news on AI" 1)))
     = Some (Some "Intent extraction failed: database is locked")
  /\ fst m'
     = [EvNode NIntent; EvLLM AIntent; EvNode NResearch; EvLLM AResearch;
        EvNode NFilter; EvNode NSummarize; EvNode NDraft; EvNode NReview].
Proof.
  cbv zeta. repeat split; try (vm_compute; reflexivity).
  vm_compute. discriminate.
Qed.


(** ** Draft versions *)

Lemma draft_process_version (w : World) (state : State) (log : list event)
    (state' : State) :
  draft_process w state = (log, Ok state') ->
  state' = set_error "No summary available for drafting" state
  \/ (draft_version state' = Some 1%Z
      /\ exists draft, draft_content state' = Some draft).
Proof.
  unfold draft_process.
  destruct (truthy (default (JStr "") (summary state))); cbn [negb].
  - intros Hrun.
    apply bind_Ok in Hrun as (l1 & draft & l2 & _ & Hret & _).
    apply ret_Ok in Hret as [<- _]. right.
    rewrite save_draft_version, save_draft_content. eauto.
  - intros [= _ <-]. now left.
Qed.

(** Only the draft node writes the draft and its version. *)
Lemma run_node_keeps_draft (w : World) (n : node) (state : State) :
  n <> NDraft ->
  ensures (fun state' => draft_version state' = draft_version state
                         /\ draft_content state' = draft_content state)
    (run_node w n state).
Proof.
  intros Hn. destruct n; try congruence; cbn [run_node].
  - unfold intent_process. ensures_walk;
      solve [ now cbn
            | unfold intent_failed; destruct (exn_kind_eqb _ _); now cbn ].
  - unfold research_process. ensures_walk;
      solve [ now cbn | apply ensures_generate_research_strategy ].
  - unfold filter_process. ensures_walk;
      solve [ now cbn | apply ensures_score_posts ].
  - unfold summarize_process. ensures_walk;
      solve [ now cbn | apply ensures_unfence ].
  - unfold request_human_review. ensures_walk. now cbn.
  - unfold handle_approval, publishing_failed. ensures_walk; now cbn.
Qed.

Lemma run_node_first_version (w : World) (n : node) (state : State)
    (log : list event) (state' : State) :
  draft_version state = first_version state ->
  run_node w n state = (log, Ok state') ->
  draft_version state' = first_version state'.
Proof.
  intros Hfirst Hrun.
  assert (n = NDraft \/ n <> NDraft) as [->|Hn]
    by (destruct n; auto; right; discriminate).
  - cbn [run_node] in Hrun.
    apply draft_process_version in Hrun as [->|[Hv [draft Hc]]].
    + exact Hfirst.
    + unfold first_version. now rewrite Hv, Hc.
  - destruct (run_node_keeps_draft w n state Hn) as [_ Hkeep].
    rewrite Hrun in Hkeep. destruct (Hkeep state' eq_refl) as [Hv Hc].
    unfold first_version in *. now rewrite Hv, Hc.
Qed.

Lemma draft_process_drafts (w : World) (state : State) (log : list event)
    (state' : State) :
  truthy (default (JStr "") (summary state)) = true ->
  draft_process w state = (log, Ok state') ->
  draft_version state' = Some 1%Z.
Proof.
  unfold draft_process. intros ->. cbn [negb]. intros Hrun.
  apply bind_Ok in Hrun as (l1 & draft & l2 & _ & Hret & _).
  apply ret_Ok in Hret as [<- _]. now rewrite save_draft_version.
Qed.

(** The graph goes along the forward edges and stops at review: when
    [_should_publish] looks for the flags of the human review, they are not on
    the channels. The draft node is entered once. *)
Lemma graph_path (fuel : nat) (worlds : nat -> World) (step : nat)
    (n : node) (state : State) (log : list event) (state' : State) :
  n <> NPublish ->
  invoke_from fuel worlds step n state = (log, Ok state') ->
  nodes_of log = forward_path n
  /\ (draft_version state = first_version state ->
      draft_version state' = first_version state').
Proof.
  revert step n state log. induction fuel as [|fuel IH];
    intros step n state log Hn Hrun; [discriminate|].
  apply invoke_from_Ok in Hrun
    as (fuel' & l1 & state1 & l2 & [= <-] & Hnode & -> & Hnext).
  destruct (run_node_keeps_error (worlds step) n state) as [Hquiet _].
  rewrite Hnode in Hquiet. cbn in Hquiet.
  pose proof (fun H => run_node_first_version _ _ _ _ _ H Hnode) as Hfirst.
  change (draft_version state1 = first_version state1)
    with (draft_version (declared state1) = first_version (declared state1))
    in Hfirst.
  change (EvNode n :: l1 ++ l2) with ([EvNode n] ++ l1 ++ l2).
  rewrite !nodes_of_app, Hquiet. cbn [nodes_of omap app].
  assert (next_node n (declared state1)
          = match n with
            | NIntent => Some NResearch
            | NResearch => Some NFilter
            | NFilter => Some NSummarize
            | NSummarize => Some NDraft
            | NDraft => Some NReview
            | _ => None
            end) as Hedge by (now destruct n).
  rewrite Hedge in Hnext.
  destruct n; try congruence;
    try (apply IH in Hnext as [Hnodes Hlast]; [|discriminate];
         rewrite Hnodes; split; [reflexivity|auto]).
  destruct Hnext as [-> ->]. split; [reflexivity|exact Hfirst].
Qed.

Lemma create_revision_returns (w : World) (state : State) (feedback : string) :
  exists log state', create_revision w state feedback = (log, Ok state').
Proof.
  unfold create_revision, invoke_llm.
  destruct (llm_reply w); cbn; eauto.
Qed.

Lemma create_revision_step (w : World) (state : State) (feedback : string)
    (v : Z) (log : list event) (state' : State) :
  draft_version state = Some v ->
  create_revision w state feedback = (log, Ok state') ->
  draft_version state' = Some (if answers w then v + 1 else v)%Z.
Proof.
  intros Hv Hrun. apply create_revision_version in Hrun.
  unfold answers. destruct (llm_reply w).
  - now rewrite Hrun, Hv.
  - destruct Hrun as [-> _]. exact Hv.
Qed.

Lemma answered_cons (w : World) (feedback : string)
    (requests : list (World * string)) :
  answered ((w, feedback) :: requests)
  = ((if answers w then 1 else 0) + answered requests)%Z.
Proof.
  unfold answered. cbn [List.filter fst].
  destruct (answers w); cbn [length]; lia.
Qed.

Lemma revisions_version (requests : list (World * string)) (state : State)
    (v : Z) :
  draft_version state = Some v ->
  exists log state',
    revisions requests state = (log, Ok state')
    /\ draft_version state' = Some (v + answered requests)%Z.
Proof.
  revert state v. induction requests as [|[w feedback] rest IH];
    intros state v Hv.
  - exists [], state. split; [reflexivity|].
    change (answered []) with 0%Z. now rewrite Z.add_0_r.
  - destruct (create_revision_returns w state feedback) as (l1 & s1 & Hrun).
    pose proof (create_revision_step _ _ _ _ _ _ Hv Hrun) as Hv1.
    destruct (IH s1 _ Hv1) as (l2 & s2 & Hrest & Hv2).
    exists (l1 ++ l2), s2. split.
    + cbn [revisions]. unfold bind. now rewrite Hrun, Hrest.
    + rewrite Hv2, answered_cons. f_equal. destruct (answers w); lia.
Qed.

Lemma answered_nonneg (requests : list (World * string)) :
  (0 <= answered requests)%Z.
Proof. unfold answered. lia. Qed.

(** C2. The version counts the drafts of a workflow. [create_initial_state]
    starts it at 0 and only the drafting agent writes it. A run of the graph
    enters the draft node once, since the revise edge is never taken, and
    ends with version 1 if it holds a draft and 0 if not. [process] writes
    version 1: its draft, the first of the workflow, takes the version from
    0 to 1. Each revision that [create_revision] makes takes it one up, and
    one that fails leaves it: after any sequence of revision requests the
    version is the one before, plus the number of revisions made. It never
    goes down. *)
Theorem draft_version_counts_drafts :
  (forall fuel worlds state log state',
     graph_invoke fuel worlds state = (log, Ok state') ->
     nodes_of log = [NIntent; NResearch; NFilter; NSummarize; NDraft; NReview])
  /\ (forall fuel worlds user_query workflow_id log state',
        run fuel worlds user_query workflow_id = (log, Ok state') ->
        draft_version state' = first_version state')
  /\ (forall w n state log state',
        n <> NDraft ->
        run_node w n state = (log, Ok state') ->
        draft_version state' = draft_version state)
  /\ (forall w state log state',
        draft_version state = Some 0%Z ->
        draft_process w state = (log, Ok state') ->
        state' = set_error "No summary available for drafting" state
        \/ draft_version state' = Some 1%Z)
  /\ (forall w state feedback v log state',
        draft_version state = Some v ->
        create_revision w state feedback = (log, Ok state') ->
        draft_version state' = Some (if answers w then v + 1 else v)%Z)
  /\ (forall requests state v,
        draft_version state = Some v ->
        exists log state',
          revisions requests state = (log, Ok state')
          /\ draft_version state' = Some (v + answered requests)%Z
          /\ (v <= v + answered requests)%Z)
  /\ (forall w requests state log state',
        draft_version state = Some 0%Z ->
        truthy (default (JStr "") (summary state)) = true ->
        (do drafted <- draft_process w state; revisions requests drafted)
        = (log, Ok state') ->
        draft_version state' = Some (1 + answered requests)%Z).
Proof.
  repeat apply conj.
  - intros fuel worlds state log state' Hrun. unfold graph_invoke in Hrun.
    now apply graph_path in Hrun as [Hnodes _].
  - intros fuel worlds user_query workflow_id log state' Hrun.
    unfold run, graph_invoke in Hrun.
    apply graph_path in Hrun as [_ Hfirst]; [|discriminate].
    now apply Hfirst.
  - intros w n state log state' Hn Hrun.
    destruct (run_node_keeps_draft w n state Hn) as [_ Hkeep].
    rewrite Hrun in Hkeep. now destruct (Hkeep state' eq_refl).
  - intros w state log state' _ Hrun.
    apply draft_process_version in Hrun as [->|[Hv _]]; auto.
  - intros *. apply create_revision_step.
  - intros requests state v Hv.
    destruct (revisions_version requests state v Hv) as (log & state' & H1 & H2).
    exists log, state'. split; [exact H1|]. split; [exact H2|].
    pose proof (answered_nonneg requests). lia.
  - intros w requests state log state' _ Hsummary Hrun.
    apply bind_Ok in Hrun as (l1 & drafted & l2 & Hdraft & Hrest & _).
    pose proof (draft_process_drafts _ _ _ _ Hsummary Hdraft) as Hv.
    destruct (revisions_version requests drafted 1 Hv)
      as (log' & state'' & Hrun' & Hv').
    rewrite Hrest in Hrun'. now injection Hrun' as _ <-.
Qed.

Lemma draft_version_counts_drafts_witness :
  let requests := [ (tweet_world, "shorter"); (down_world, "more detail");
                    (tweet_world, "add a hashtag") ] in
  draft_version summarized_state = Some 0%Z
  /\ answered requests = 2%Z
  /\ exists log state',
       (do drafted <- draft_process tweet_world summarized_state;
        revisions requests drafted) = (log, Ok state')
       /\ draft_version state' = Some 3%Z.
Proof.
  intros requests. split; [reflexivity|]. split; [reflexivity|].
  destruct (do drafted <- draft_process tweet_world summarized_state;
            revisions requests drafted) as [log [state'|e]] eqn:Hrun;
    [|vm_compute in Hrun; discriminate].
  exists log, state'. split; [reflexivity|].
  destruct draft_version_counts_drafts as (_ & _ & _ & _ & _ & _ & Hlife).
  apply (Hlife tweet_world requests summarized_state log state');
    [reflexivity|reflexivity|exact Hrun].
Defined.

(** * Further properties of the code *)

(** ** The Reddit client *)

Lemma prefix_app (s t : string) : String.prefix s (s +:+ t) = true.
Proof.
  induction s as [|c s IH]; [now destruct t|].
  change (String c s +:+ t) with (String c (s +:+ t)). cbn [String.prefix].
  destruct (ascii_dec c c); [exact IH|congruence].
Qed.

Lemma str_app_nil_r (s : string) : s +:+ "" = s.
Proof.
  induction s as [|c s IH]; [reflexivity|].
  change (String c s +:+ "") with (String c (s +:+ "")). now rewrite IH.
Qed.

(** [_parse_post] weighs a comment twice as much as a vote, and builds a
    content that starts with the title and adds at most a blank line and
    500 characters of the post's own text. *)
Theorem parse_post_engagement_and_content (post_data : RawPost) :
  let p := _parse_post post_data in
  engagement_score p
  = (raw_score post_data + 2 * raw_num_comments post_data)%Z
  /\ String.prefix (title p) (content p) = true
  /\ (String.length (content p) <= String.length (title p) + 502)%nat
  /\ (String.length (content p) = String.length (title p)
      <-> raw_selftext post_data = "").
Proof.
  destruct post_data as [id ttl self auth sub sc nc]. cbn.
  split; [lia|].
  destruct (String.eqb_spec self "") as [->|Hself]; cbn.
  - split; [|split; [lia|tauto]].
    rewrite <- (str_app_nil_r ttl) at 2. apply prefix_app.
  - split; [apply prefix_app|].
    rewrite str_app_length. cbn. rewrite str_take_length.
    split; [lia|]. split; [lia|contradiction].
Qed.

Lemma lower_ascii_idem (c : ascii) : lower_ascii (lower_ascii c) = lower_ascii c.
Proof. destruct c as [[] [] [] [] [] [] [] []]; reflexivity. Qed.

Lemma lower_idem (s : string) : lower (lower s) = lower s.
Proof.
  induction s as [|c s IH]; cbn; [reflexivity|].
  now rewrite lower_ascii_idem, IH.
Qed.

(** For every topic that is a string, [get_relevant_subreddits] returns
    between one and three subreddit names, and the letter case of the topic
    does not matter. *)
Theorem relevant_subreddits_shape (t : string) :
  exists names : list string,
    get_relevant_subreddits (JStr t) = Ok (JArr (map JStr names))
    /\ (1 <= length names <= 3)%nat
    /\ get_relevant_subreddits (JStr (lower t))
       = get_relevant_subreddits (JStr t).
Proof.
  unfold get_relevant_subreddits. rewrite lower_idem.
  destruct (List.find _ subreddit_map) as [[k subs]|] eqn:Hfind.
  - apply List.find_some in Hfind as [Hin _]. cbn in Hin.
    repeat (destruct Hin as [[= <- <-]|Hin];
            [eexists; split; [reflexivity|]; cbn; split; [lia|reflexivity]|]).
    destruct Hin.
  - exists ["news"; "worldnews"]. cbn. split; [reflexivity|].
    split; [lia|reflexivity].
Qed.

(** The table is searched in order and "ai" comes first: a topic whose
    lower-case form contains "ai", or is contained in "ai", gets the
    subreddits on artificial intelligence, whatever else it names. *)
Theorem relevant_subreddits_ai_first (t : string) :
  contains "ai" (lower t) || contains (lower t) "ai" = true ->
  get_relevant_subreddits (JStr t)
  = Ok (JArr [JStr "artificial"; JStr "MachineLearning"; JStr "OpenAI"]).
Proof.
  intros Hhit. unfold get_relevant_subreddits, subreddit_map.
  cbn [List.find fst]. now rewrite Hhit.
Qed.

Lemma relevant_subreddits_ai_first_witness :
  get_relevant_subreddits (JStr "Ukraine politics")
  = Ok (JArr [JStr "artificial"; JStr "MachineLearning"; JStr "OpenAI"]).
Proof.
  apply relevant_subreddits_ai_first. reflexivity.
Defined.

(** ** The research strategy *)

Lemma assoc_get_set_eq (k : string) (v : json) (kv : list (string * json)) :
  assoc_get k (assoc_set k v kv) = Some v.
Proof.
  induction kv as [|[k' v'] kv IH]; cbn.
  - now rewrite String.eqb_refl.
  - destruct (String.eqb k k') eqn:Hk; cbn; rewrite ?String.eqb_refl, ?Hk; auto.
Qed.

Lemma assoc_get_set_ne (k k' : string) (v : json) (kv : list (string * json)) :
  k <> k' -> assoc_get k (assoc_set k' v kv) = assoc_get k kv.
Proof.
  intros Hne. induction kv as [|[k0 v0] kv IH]; cbn.
  - now destruct (String.eqb_spec k k').
  - destruct (String.eqb_spec k' k0) as [->|Hk0]; cbn.
    + now destruct (String.eqb_spec k k0).
    + destruct (String.eqb_spec k k0); auto.
Qed.

Lemma subreddit_names (t : string) :
  exists names : list string,
    get_relevant_subreddits (JStr t) = Ok (JArr (map JStr names))
    /\ (1 <= length names)%nat.
Proof.
  unfold get_relevant_subreddits.
  destruct (List.find _ subreddit_map) as [[k subs]|] eqn:Hfind.
  - apply List.find_some in Hfind as [Hin _]. cbn in Hin.
    repeat (destruct Hin as [[= <- <-]|Hin];
            [eexists; split; [reflexivity|]; cbn; lia|]).
    destruct Hin.
  - exists ["news"; "worldnews"]. cbn. split; [reflexivity|lia].
Qed.

Lemma relevant_subreddits_truthy (topic subreddits : json) :
  get_relevant_subreddits topic = Ok subreddits -> truthy subreddits = true.
Proof.
  destruct topic as [| | | |t| |]; try discriminate.
  destruct (subreddit_names t) as (names & -> & Hlen).
  intros [= <-]. destruct names; [cbn in Hlen; lia|reflexivity].
Qed.

Lemma has_key_get (k : string) (kv : list (string * json)) :
  has_key k kv = true -> exists v, assoc_get k kv = Some v.
Proof. unfold has_key. destruct (assoc_get k kv); [eauto|discriminate]. Qed.

(** Whenever [_generate_research_strategy] returns, it has called the
    reasoning service once and its strategy is a dictionary with the keys
    "subreddits", "search_query" and "time_filter", the subreddits being
    truthy. [_search_reddit] then asks each subreddit for its top posts: the
    search across all of Reddit is never used by the research agent. *)
Theorem research_strategy_complete (w : World) (topic scope : json)
    (log : list event) (strategy : json) :
  _generate_research_strategy w topic scope = (log, Ok strategy) ->
  exists kv subreddits query time_filter,
    strategy = JObj kv
    /\ log = [EvLLM AResearch]
    /\ assoc_get "subreddits" kv = Some subreddits
    /\ truthy subreddits = true
    /\ assoc_get "search_query" kv = Some query
    /\ assoc_get "time_filter" kv = Some time_filter
    /\ _search_reddit w strategy
       = match py_iter subreddits with
         | Ok items =>
             flat_map
               (fun subreddit =>
                  get_top_posts w subreddit (30 / py_len items + 5)%Z
                    time_filter)
               items
         | Raise _ => []
         end.
Proof.
  intros Hrun.
  assert (exists kv subreddits query time_filter,
             strategy = JObj kv /\ log = [EvLLM AResearch]
             /\ assoc_get "subreddits" kv = Some subreddits
             /\ truthy subreddits = true
             /\ assoc_get "search_query" kv = Some query
             /\ assoc_get "time_filter" kv = Some time_filter)
    as (kv & subreddits & query & time_filter & -> & -> & Hs & Ht & Hq & Hf).
  { revert Hrun. unfold _generate_research_strategy, invoke_llm, loads.
    destruct (llm_reply w) as [text|e]; cbn; [|discriminate].
    destruct (json_loads w text) as [msg|decoded]; cbn.
    - unfold fallback_strategy.
      destruct (get_relevant_subreddits topic) as [subs|e] eqn:Hsubs; cbn;
        [|discriminate].
      intros [= <- <-]. eexists _, subs, topic, (JStr "day").
      repeat split; try reflexivity. eapply relevant_subreddits_truthy, Hsubs.
    - destruct decoded as [| | | | | |kv]; cbn; try discriminate.
      set (keep := negb (has_key "subreddits" kv)
                   || negb (truthy (default JNull (assoc_get "subreddits" kv)))).
      assert (forall kv1 subs,
                 assoc_get "subreddits" kv1 = Some subs ->
                 truthy subs = true ->
                 let kv2 := if negb (has_key "search_query" kv1)
                            then assoc_set "search_query" topic kv1 else kv1 in
                 let kv3 := if negb (has_key "time_filter" kv2)
                            then assoc_set "time_filter" (JStr "day") kv2
                            else kv2 in
                 exists query time_filter,
                   assoc_get "subreddits" kv3 = Some subs
                   /\ assoc_get "search_query" kv3 = Some query
                   /\ assoc_get "time_filter" kv3 = Some time_filter) as Hkeys.
      { intros kv1 subs Hs Ht kv2 kv3.
        assert (assoc_get "subreddits" kv2 = Some subs
                /\ exists query, assoc_get "search_query" kv2 = Some query)
          as [Hs2 [query Hq2]].
        { subst kv2. destruct (has_key "search_query" kv1) eqn:Hk; cbn.
          - split; [exact Hs|now apply has_key_get].
          - split; [now rewrite assoc_get_set_ne|].
            eexists. apply assoc_get_set_eq. }
        subst kv3. destruct (has_key "time_filter" kv2) eqn:Hk; cbn.
        - apply has_key_get in Hk as [tf Htf]. eauto.
        - exists query, (JStr "day").
          rewrite !assoc_get_set_ne by discriminate.
          split; [exact Hs2|]. split; [exact Hq2|apply assoc_get_set_eq]. }
      destruct keep eqn:Hkeep; subst keep; cbn.
      + destruct (get_relevant_subreddits topic) as [subs|e] eqn:Hsubs; cbn.
        2:{ destruct e as [[] m]; cbn; try discriminate;
              unfold fallback_strategy; rewrite Hsubs; discriminate. }
        intros [= <- <-].
        destruct (Hkeys (assoc_set "subreddits" subs kv) subs
                    (assoc_get_set_eq _ _ _)
                    (relevant_subreddits_truthy _ _ Hsubs))
          as (query & tf & H1 & H2 & H3).
        eexists _, subs, query, tf.
        repeat split;
          first [reflexivity | exact H1 | exact H2 | exact H3
                | eapply relevant_subreddits_truthy; eassumption | assumption].
      + apply orb_false_elim in Hkeep as [Hhas Htruthy].
        apply negb_false_iff in Hhas, Htruthy.
        apply has_key_get in Hhas as [subs Hsubs].
        rewrite Hsubs in Htruthy. cbn in Htruthy.
        intros [= <- <-].
        destruct (Hkeys kv subs Hsubs Htruthy) as (query & tf & H1 & H2 & H3).
        eexists _, subs, query, tf.
        repeat split;
          first [reflexivity | exact H1 | exact H2 | exact H3
                | eapply relevant_subreddits_truthy; eassumption | assumption]. }
  exists kv, subreddits, query, time_filter.
  repeat (split; [assumption || reflexivity|]).
  unfold _search_reddit, py_item, search_posts. rewrite Hs, Hq, Hf, Ht.
  now destruct (py_iter subreddits).
Qed.

Lemma research_strategy_complete_witness :
  exists kv subreddits,
    _generate_research_strategy tech_world (JStr "technology") (JStr "latest")
    = ([EvLLM AResearch], Ok (JObj kv))
    /\ assoc_get "subreddits" kv = Some subreddits
    /\ truthy subreddits = true.
Proof.
  destruct (research_strategy_complete tech_world (JStr "technology")
              (JStr "latest") [EvLLM AResearch]
              (JObj [ ("subreddits", JArr [JStr "technology"; JStr "Technology"]);
                      ("search_query", JStr "technology");
                      ("time_filter", JStr "day") ]))
    as (kv & subs & _ & _ & Heq & _ & Hs & Ht & _).
  - reflexivity.
  - exists kv, subs. rewrite <- Heq. now repeat split.
Defined.

(** When the reply of the reasoning service is not JSON, the strategy is the
    deterministic one: the subreddits of the table for the topic, the topic
    itself as search phrase, and the last day. *)
Theorem research_strategy_fallback (w : World) (t : string) (scope : json)
    (text msg : string) :
  llm_reply w = Ok text ->
  json_loads w text = inl msg ->
  exists subreddits,
    get_relevant_subreddits (JStr t) = Ok subreddits
    /\ _generate_research_strategy w (JStr t) scope
       = ([EvLLM AResearch],
          Ok (JObj [ ("subreddits", subreddits); ("search_query", JStr t);
                     ("time_filter", JStr "day") ])).
Proof.
  intros Hllm Hjson.
  destruct (subreddit_names t) as (names & Hsubs & _).
  exists (JArr (map JStr names)). split; [exact Hsubs|].
  unfold _generate_research_strategy, invoke_llm, loads, fallback_strategy.
  rewrite Hllm. cbn -[get_relevant_subreddits]. rewrite Hjson.
  cbn -[get_relevant_subreddits]. now rewrite Hsubs.
Qed.

Lemma research_strategy_fallback_witness :
  _generate_research_strategy undecodable_world (JStr "AI today") (JStr "today")
  = ([EvLLM AResearch],
     Ok (JObj [ ("subreddits",
                 JArr [JStr "artificial"; JStr "MachineLearning"; JStr "OpenAI"]);
                ("search_query", JStr "AI today");
                ("time_filter", JStr "day") ])).
Proof.
  destruct (research_strategy_fallback undecodable_world "AI today"
              (JStr "today") "Sure! Here are the scores." "Expecting value")
    as (subs & Hsubs & Hrun); [reflexivity|reflexivity|].
  rewrite Hrun. injection Hsubs as <-. reflexivity.
Defined.

(** A failure of the reasoning service is not among the exceptions the
    strategy step handles: the research stage raises, it neither falls back
    to the table nor records an error on the state. *)
Theorem research_llm_failure_raises (w : World) (state : State) (e : exn) :
  truthy (default (JStr "") (topic state)) = true ->
  llm_reply w = Raise e ->
  research_process w state
  = ([EvLLM AResearch],
     Raise (Exn RuntimeError ("LLM invocation failed: " +:+ exn_msg e))).
Proof.
  intros Htopic Hllm.
  unfold research_process, _generate_research_strategy, invoke_llm.
  rewrite Htopic, Hllm. reflexivity.
Qed.

Lemma research_llm_failure_raises_witness :
  research_process down_world tech_state
  = ([EvLLM AResearch],
     Raise (Exn RuntimeError "LLM invocation failed: connection refused")).
Proof.
  apply (research_llm_failure_raises down_world tech_state
           (Exn ExternalError "connection refused")); reflexivity.
Defined.

(** ** Logs of external calls *)

Lemma silent_ret {A} (a : A) : silent (ret a).
Proof. reflexivity. Qed.

Lemma silent_raise {A} (e : exn) : silent (@raise A e).
Proof. reflexivity. Qed.

Lemma silent_lift {A} (r : res A) : silent (lift r).
Proof. reflexivity. Qed.

Lemma silent_loads (w : World) (text : string) : silent (loads w text).
Proof. unfold loads. now destruct (json_loads w text). Qed.

Lemma silent_bind {A B} (m : M A) (k : A -> M B) :
  silent m -> (forall a, silent (k a)) -> silent (bind m k).
Proof.
  unfold silent, bind. destruct m as [l [a|e]]; cbn; intros -> Hk; [|reflexivity].
  specialize (Hk a). destruct (k a) as [l2 r]. exact Hk.
Qed.

Lemma silent_try_except {A} (body : M A) (kinds : list exn_kind)
    (handler : exn -> M A) :
  silent body -> (forall e, silent (handler e)) ->
  silent (try_except body kinds handler).
Proof.
  unfold silent, try_except. destruct body as [l [a|e]]; cbn; intros -> Hh;
    [reflexivity|].
  destruct (existsb _ kinds); [|reflexivity].
  specialize (Hh e). destruct (handler e) as [l2 r]. exact Hh.
Qed.

Lemma fst_bind_silent {A B} (m : M A) (k : A -> M B) :
  (forall a, silent (k a)) -> fst (bind m k) = fst m.
Proof.
  unfold silent, bind. intros Hk. destruct m as [l [a|e]]; [|reflexivity].
  specialize (Hk a). destruct (k a) as [l2 r]. cbn in *. subst.
  apply app_nil_r.
Qed.

Lemma fst_try_except_silent {A} (body : M A) (kinds : list exn_kind)
    (handler : exn -> M A) :
  (forall e, silent (handler e)) ->
  fst (try_except body kinds handler) = fst body.
Proof.
  unfold silent, try_except. intros Hh. destruct body as [l [a|e]];
    [reflexivity|].
  destruct (existsb _ kinds); [|reflexivity].
  specialize (Hh e). destruct (handler e) as [l2 r]. cbn in *. subst.
  apply app_nil_r.
Qed.

Lemma fst_try_except_all_silent {A} (body : M A) (handler : exn -> M A) :
  (forall e, silent (handler e)) ->
  fst (try_except_all body handler) = fst body.
Proof.
  unfold silent, try_except_all. intros Hh. destruct body as [l [a|e]];
    [reflexivity|].
  specialize (Hh e). destruct (handler e) as [l2 r]. cbn in *. subst.
  apply app_nil_r.
Qed.

Lemma bind_lift_Ok {A B} (a : A) (k : A -> M B) : bind (lift (Ok a)) k = k a.
Proof. unfold bind, lift. now destruct (k a). Qed.

Lemma fst_invoke_llm (w : World) (a : agent) : fst (invoke_llm w a) = [EvLLM a].
Proof. unfold invoke_llm. now destruct (llm_reply w). Qed.

(** One step through the shape of a computation without calls. *)
Ltac silent_step :=
  lazymatch goal with
  | |- silent (bind _ _) => apply silent_bind; [|intros ?]
  | |- silent (try_except _ _ _) => apply silent_try_except; [|intros ?]
  | |- silent (ret _) => apply silent_ret
  | |- silent (raise _) => apply silent_raise
  | |- silent (lift _) => apply silent_lift
  | |- silent (loads _ _) => apply silent_loads
  | |- silent (match ?x with _ => _ end) => destruct x
  end.

Ltac silent_walk := cbv zeta; repeat silent_step.

Lemma silent_unfence (response : string) : silent (unfence response).
Proof. unfold unfence. silent_walk. Qed.

Lemma silent_fallback_strategy (topic : json) : silent (fallback_strategy topic).
Proof. unfold fallback_strategy. silent_walk. Qed.

Lemma fst_generate_research_strategy (w : World) (topic scope : json) :
  fst (_generate_research_strategy w topic scope) = [EvLLM AResearch].
Proof.
  unfold _generate_research_strategy.
  rewrite fst_try_except_silent by (intros; apply silent_fallback_strategy).
  rewrite fst_bind_silent; [apply fst_invoke_llm|]. intros. silent_walk.
Qed.

Lemma fst_score_posts (w : World) (topic : json) (posts : list Post) :
  fst (_score_posts w topic posts)
  = match posts with [] => [] | _ => [EvLLM AFilter] end.
Proof.
  unfold _score_posts. destruct posts as [|p rest]; [reflexivity|].
  rewrite fst_try_except_silent by (intros; apply silent_ret).
  rewrite fst_bind_silent; [apply fst_invoke_llm|]. intros. silent_walk.
  apply silent_unfence.
Qed.

Lemma fst_create_draft (w : World) (topic summary key_trends tone : json) :
  fst (_create_draft w topic summary key_trends tone)
  = match check_trends key_trends with
    | Ok _ => [EvLLM ADraft]
    | Raise _ => []
    end.
Proof.
  unfold _create_draft. destruct (check_trends key_trends) as [[]|e];
    [|reflexivity].
  rewrite bind_lift_Ok.
  rewrite fst_try_except_all_silent by (intros; silent_walk).
  rewrite fst_bind_silent; [apply fst_invoke_llm|]. intros. apply silent_ret.
Qed.

(** ** Ranking *)

Lemma StronglySorted_take {A} (R : A -> A -> Prop) (n : nat) (l : list A) :
  StronglySorted R l -> StronglySorted R (take n l).
Proof.
  intros Hl. revert n. induction Hl as [|x l Hl IH Hx]; intros [|n]; cbn;
    try constructor.
  - apply IH.
  - now apply Forall_take.
Qed.

(** The ranked list, as Python computes it on binary64 scores, is the head
    of the stable descending sort of the scored candidates. For candidates
    whose engagement is an integer of at most 53 bits and on whose combined
    scores the comparison of binary64 is an order (it is when none of them
    is NaN): the combined scores of the ranked list never increase, and
    candidates none of which is below another keep the order of the
    candidate list. *)
Theorem ranking64_is_stable_descending (top_k : Z)
    (scores : gmap string float) (raw_posts : list Post) :
  let scored := map (score_post64 scores raw_posts) raw_posts in
  let by_score (a b : ScoredPost64) := below64 a b = false in
  Forall (fun p => exact_int (engagement_score p)) raw_posts ->
  (forall a b, In a scored -> In b scored ->
               below64 a b = true -> below64 b a = false) ->
  (forall a b c, In a scored -> In b scored -> In c scored ->
                 below64 a b = false -> below64 b c = false ->
                 below64 a c = false) ->
  exists full,
    Permutation scored full
    /\ StronglySorted by_score full
    /\ (forall p : ScoredPost64 -> bool,
          (forall a b, p a = true -> p b = true -> below64 a b = false) ->
          List.filter p full = List.filter p scored)
    /\ rank_posts64 top_k scores raw_posts = py_take top_k full
    /\ StronglySorted by_score (rank_posts64 top_k scores raw_posts).
Proof.
  intros scored by_score _ Hasym Htrans.
  assert (StronglySorted by_score
            (sorted_desc combined_score64 PrimFloat.ltb scored)) as Hsorted
    by exact (sorted_desc_sorted_on combined_score64 PrimFloat.ltb scored
                Hasym Htrans).
  exists (sorted_desc combined_score64 PrimFloat.ltb scored).
  split; [apply sorted_desc_perm|]. split; [exact Hsorted|].
  split; [|split; [reflexivity|]].
  - intros p Hp.
    exact (sorted_desc_stable combined_score64 PrimFloat.ltb p scored Hp).
  - unfold rank_posts64, py_take. now apply StronglySorted_take.
Qed.

(** Once rounded, the second candidate of the tie is above the first, and
    Python ranks it first; on the rationals the two are equal and keep
    their order. *)
Lemma ranking64_is_stable_descending_witness :
  map (fun sp => post_id (sp64_post sp)) (rank_posts64 5 tie_scores64 [tie_a; tie_b])
  = ["b"; "a"]
  /\ map (fun sp => post_id (sp_post sp)) (rank_posts 5 tie_scores [tie_a; tie_b])
     = ["a"; "b"]
  /\ exists full,
       rank_posts64 5 tie_scores64 [tie_a; tie_b] = py_take 5 full
       /\ StronglySorted (fun a b => below64 a b = false)
            (rank_posts64 5 tie_scores64 [tie_a; tie_b]).
Proof.
  split; [vm_compute; reflexivity|]. split; [vm_compute; reflexivity|].
  destruct (ranking64_is_stable_descending 5 tie_scores64 [tie_a; tie_b])
    as (full & _ & _ & _ & Hrank & Hsorted).
  - repeat constructor; unfold exact_int; cbn; lia.
  - intros a b [<-|[<-|[]]] [<-|[<-|[]]]; vm_compute; congruence.
  - intros a b c [<-|[<-|[]]] [<-|[<-|[]]] [<-|[<-|[]]]; vm_compute;
      congruence.
  - exists full. split; [exact Hrank|exact Hsorted].
Defined.

(** For every [top_k] the number of ranked candidates is that of the Python
    slice: [min(top_k, n)] when [top_k] is not negative, and otherwise all
    candidates but the last [-top_k], none when there are fewer. *)
Theorem rank_posts_length_any (top_k : Z) (scores : gmap string Q)
    (raw_posts : list Post) :
  let n := Z.of_nat (length raw_posts) in
  Z.of_nat (length (rank_posts top_k scores raw_posts))
  = if (top_k <? 0)%Z then Z.max 0 (n + top_k) else Z.min top_k n.
Proof.
  cbv zeta. unfold rank_posts, py_take, slice_stop.
  rewrite length_take, sorted_desc_length, length_map.
  destruct (Z.ltb_spec top_k 0); lia.
Qed.

(** Whatever the filter stage returns, it has not touched [error], the
    candidates or the topic, and it has called the reasoning service once,
    or not at all when there was no candidate. *)
Theorem filter_never_sets_error (top_k : Z) (w : World) (state : State)
    (log : list event) (state' : State) :
  filter_process top_k w state = (log, Ok state') ->
  error state' = error state
  /\ raw_tweets state' = raw_tweets state
  /\ topic state' = topic state
  /\ log = match default [] (raw_tweets state) with
           | [] => []
           | _ => [EvLLM AFilter]
           end.
Proof.
  unfold filter_process.
  destruct (default [] (raw_tweets state)) as [|p rest].
  - intros [= <- <-]. now repeat split.
  - intros Hrun.
    apply bind_Ok in Hrun as (l1 & scores & l2 & Hscore & Hrest & ->).
    apply bind_Ok in Hrest as (l3 & [] & l4 & Hdb & Hret & ->).
    apply ret_Ok in Hret as [<- ->].
    assert (l3 = []) as ->.
    { destruct (persists w state);
        [now apply lift_Ok in Hdb|now apply ret_Ok in Hdb]. }
    repeat split. rewrite !app_nil_r.
    pose proof (fst_score_posts w (default (JStr "") (topic state)) (p :: rest))
      as Hlog.
    now rewrite Hscore in Hlog.
Qed.

Lemma filter_never_sets_error_witness :
  exists log state',
    filter_process 5 undecodable_world scenario_b_state = (log, Ok state')
    /\ error state' = None
    /\ log = [EvLLM AFilter].
Proof.
  destruct (filter_process 5 undecodable_world scenario_b_state)
    as [log [state'|e]] eqn:Hrun; [|vm_compute in Hrun; discriminate].
  destruct (filter_never_sets_error 5 undecodable_world scenario_b_state
              log state' Hrun) as (Herr & _ & _ & Hlog).
  exists log, state'. split; [reflexivity|]. split; [exact Herr|exact Hlog].
Defined.

(** A failure of the reasoning service is not among the failures relevance
    scoring falls back on: with candidates to score, the filter stage
    raises. *)
Theorem filter_llm_failure_raises (top_k : Z) (w : World) (state : State)
    (e : exn) :
  default [] (raw_tweets state) <> [] ->
  llm_reply w = Raise e ->
  filter_process top_k w state
  = ([EvLLM AFilter],
     Raise (Exn RuntimeError ("LLM invocation failed: " +:+ exn_msg e))).
Proof.
  intros Hraw Hllm. unfold filter_process.
  destruct (default [] (raw_tweets state)) as [|p rest]; [congruence|].
  unfold _score_posts, invoke_llm. rewrite Hllm. reflexivity.
Qed.

Lemma filter_llm_failure_raises_witness :
  filter_process 5 down_world scenario_b_state
  = ([EvLLM AFilter],
     Raise (Exn RuntimeError "LLM invocation failed: connection refused")).
Proof.
  apply (filter_llm_failure_raises 5 down_world scenario_b_state
           (Exn ExternalError "connection refused")).
  - discriminate.
  - reflexivity.
Defined.

(** ** Reading the relevance reply *)

(** The mapping a loop over well-formed entries builds. *)
Lemma score_items_entries (w : World) (entries : list (string * Q))
    (scores : gmap string Q) :
  (forall entry, In entry entries -> fst entry <> "") ->
  score_items w scores (map score_entry entries)
  = Ok (foldl (fun m entry => <[fst entry := snd entry]> m) scores entries).
Proof.
  revert scores. induction entries as [|[id q] entries IH]; intros scores Hid;
    [reflexivity|].
  cbn [map score_items foldl]. unfold score_item, score_entry. cbn.
  assert (String.eqb id "" = false) as ->.
  { apply String.eqb_neq. apply (Hid (id, q)). now left. }
  cbn. apply IH. intros entry Hin. apply Hid. now right.
Qed.

Lemma foldl_insert_other (entries : list (string * Q)) (scores : gmap string Q)
    (id : string) :
  ~ In id (map fst entries) ->
  foldl (fun m entry => <[fst entry := snd entry]> m) scores entries !! id
  = scores !! id.
Proof.
  revert scores. induction entries as [|[id' q] entries IH]; intros scores Hnot;
    [reflexivity|].
  cbn [foldl fst snd]. rewrite IH by (intros Hin; apply Hnot; now right).
  apply lookup_insert_ne. intros ->. apply Hnot. now left.
Qed.

Lemma foldl_insert_listed (entries : list (string * Q)) (scores : gmap string Q)
    (id : string) (q : Q) :
  List.NoDup (map fst entries) ->
  In (id, q) entries ->
  foldl (fun m entry => <[fst entry := snd entry]> m) scores entries !! id
  = Some q.
Proof.
  revert scores. induction entries as [|[id' q'] entries IH];
    intros scores Hnd Hin; [destruct Hin|].
  cbn [map fst] in Hnd. apply List.NoDup_cons_iff in Hnd as [Hfresh Hnd].
  cbn [foldl fst snd]. destruct Hin as [[= -> ->]|Hin].
  - rewrite foldl_insert_other by exact Hfresh. apply lookup_insert_eq.
  - now apply IH.
Qed.

Lemma score_items_app (w : World) (l1 l2 : list json) (scores : gmap string Q) :
  score_items w scores (l1 ++ l2)
  = match score_items w scores l1 with
    | Ok scores' => score_items w scores' l2
    | Raise e => Raise e
    end.
Proof.
  revert scores. induction l1 as [|item l1 IH]; intros scores; [reflexivity|].
  cbn [app score_items]. destruct (score_item w scores item); [apply IH|reflexivity].
Qed.

(** A reply of the documented form is read back as written: when it decodes
    to an object whose "scores" lists one entry per post id, with ids that
    are not empty and all different, relevance scoring returns the mapping
    that gives every listed id its score and has no other key. *)
Theorem score_posts_reads_reply (w : World) (topic : json) (posts : list Post)
    (text text' : string) (kv : list (string * json))
    (entries : list (string * Q)) :
  posts <> [] ->
  llm_reply w = Ok text ->
  unfence text = ret text' ->
  json_loads w text' = inr (JObj kv) ->
  assoc_get "scores" kv = Some (JArr (map score_entry entries)) ->
  (forall entry, In entry entries -> fst entry <> "") ->
  List.NoDup (map fst entries) ->
  exists scores,
    _score_posts w topic posts = ([EvLLM AFilter], Ok scores)
    /\ (forall id q, In (id, q) entries -> scores !! id = Some q)
    /\ (forall id, ~ In id (map fst entries) -> scores !! id = None).
Proof.
  intros Hne Hllm Hfence Hjson Hscores Hids Hnd.
  exists (foldl (fun m entry => <[fst entry := snd entry]> m) ∅ entries).
  split; [|split].
  - unfold _score_posts, invoke_llm, loads.
    destruct posts as [|p rest]; [congruence|].
    rewrite Hllm. cbn. rewrite Hfence. cbn. rewrite Hjson. cbn.
    rewrite Hscores. cbn. now rewrite score_items_entries.
  - intros id q. now apply foldl_insert_listed.
  - intros id Hnot. rewrite foldl_insert_other by exact Hnot.
    apply lookup_empty.
Qed.

Lemma score_posts_reads_reply_witness :
  exists scores,
    _score_posts
      (reply_world
         (JObj [("scores", JArr (map score_entry [("a", 0.9%Q); ("b", 0.2%Q)]))]))
      (JStr "news") [post_a; post_b]
    = ([EvLLM AFilter], Ok scores)
    /\ scores !! "a" = Some 0.9%Q
    /\ scores !! "b" = Some 0.2%Q
    /\ scores !! "c" = None.
Proof.
  destruct (score_posts_reads_reply
              (reply_world
                 (JObj [("scores",
                         JArr (map score_entry [("a", 0.9%Q); ("b", 0.2%Q)]))]))
              (JStr "news") [post_a; post_b] "reply" "reply"
              [("scores", JArr (map score_entry [("a", 0.9%Q); ("b", 0.2%Q)]))]
              [("a", 0.9%Q); ("b", 0.2%Q)])
    as (scores & Hrun & Hin & Hout).
  - discriminate.
  - reflexivity.
  - reflexivity.
  - reflexivity.
  - reflexivity.
  - intros entry [<-|[<-|[]]]; discriminate.
  - repeat constructor; cbn; intuition discriminate.
  - exists scores. split; [exact Hrun|]. split; [|split].
    + apply Hin. now left.
    + apply Hin. right. now left.
    + apply Hout. cbn. intuition discriminate.
Defined.

(** One score that [float] cannot read discards the whole reply: when an
    entry whose score is such a string follows well-formed entries, every
    candidate gets the neutral relevance, the scores read before
    included. *)
Theorem score_posts_bad_score_is_neutral (w : World) (topic : json)
    (posts : list Post) (text text' : string) (kv : list (string * json))
    (entries : list (string * Q)) (id bad : string) (rest : list json) :
  posts <> [] ->
  llm_reply w = Ok text ->
  unfence text = ret text' ->
  json_loads w text' = inr (JObj kv) ->
  assoc_get "scores" kv
  = Some (JArr (map score_entry entries
                ++ JObj [("post_id", JStr id); ("score", JStr bad)] :: rest)) ->
  (forall entry, In entry entries -> fst entry <> "") ->
  id <> "" ->
  float_of_str w bad = None ->
  _score_posts w topic posts = ([EvLLM AFilter], Ok (neutral_scores posts))
  /\ forall p, relevance_score (score_post (neutral_scores posts) posts p)
               = 0.5%Q.
Proof.
  intros Hne Hllm Hfence Hjson Hscores Hids Hid Hbad. split.
  - unfold _score_posts, invoke_llm, loads.
    destruct posts as [|p rest']; [congruence|].
    rewrite Hllm. cbn. rewrite Hfence. cbn. rewrite Hjson. cbn.
    rewrite Hscores. cbn.
    rewrite score_items_app, score_items_entries by exact Hids.
    cbn [score_items]. unfold score_item. cbn.
    apply String.eqb_neq in Hid. rewrite Hid, Hbad. reflexivity.
  - intros p. unfold score_post. cbn.
    now destruct (neutral_scores_lookup posts (post_id p)) as [-> | ->].
Qed.

Lemma score_posts_bad_score_is_neutral_witness :
  _score_posts
    (reply_world
       (JObj [("scores",
               JArr [ score_entry ("a", 0.9%Q);
                      JObj [("post_id", JStr "b"); ("score", JStr "high")] ])]))
    (JStr "news") [post_a; post_b]
  = ([EvLLM AFilter], Ok (neutral_scores [post_a; post_b])).
Proof.
  apply (score_posts_bad_score_is_neutral
           (reply_world
              (JObj [("scores",
                      JArr [ score_entry ("a", 0.9%Q);
                             JObj [("post_id", JStr "b");
                                   ("score", JStr "high")] ])]))
           (JStr "news") [post_a; post_b] "reply" "reply"
           [("scores",
             JArr [ score_entry ("a", 0.9%Q);
                    JObj [("post_id", JStr "b"); ("score", JStr "high")] ])]
           [("a", 0.9%Q)] "b" "high" []).
  - discriminate.
  - reflexivity.
  - reflexivity.
  - reflexivity.
  - reflexivity.
  - intros entry [<-|[]]. discriminate.
  - discriminate.
  - reflexivity.
Defined.

(** A reply that decodes to an object without "scores" yields the empty
    mapping: every candidate gets relevance 0.5 from the default of the
    lookup, and no failure is reported. *)
Theorem score_posts_without_scores (w : World) (topic : json)
    (posts : list Post) (text text' : string) (kv : list (string * json)) :
  posts <> [] ->
  llm_reply w = Ok text ->
  unfence text = ret text' ->
  json_loads w text' = inr (JObj kv) ->
  assoc_get "scores" kv = None ->
  _score_posts w topic posts = ([EvLLM AFilter], Ok ∅)
  /\ forall p, relevance_score (score_post ∅ posts p) = 0.5%Q.
Proof.
  intros Hne Hllm Hfence Hjson Hscores. split.
  - unfold _score_posts, invoke_llm, loads.
    destruct posts as [|p rest]; [congruence|].
    rewrite Hllm. cbn. rewrite Hfence. cbn. rewrite Hjson. cbn.
    rewrite Hscores. reflexivity.
  - intros p. unfold score_post. cbn. now rewrite lookup_empty.
Qed.

Lemma score_posts_without_scores_witness :
  _score_posts (reply_world (JObj [("ranking", JArr [])])) (JStr "news")
    [post_a; post_b]
  = ([EvLLM AFilter], Ok ∅).
Proof.
  apply (score_posts_without_scores
           (reply_world (JObj [("ranking", JArr [])])) (JStr "news")
           [post_a; post_b] "reply" "reply" [("ranking", JArr [])]).
  - discriminate.
  - reflexivity.
  - reflexivity.
  - reflexivity.
  - reflexivity.
Defined.

(** ** External calls of the stages *)

Ltac calls_bound :=
  repeat match goal with
         | |- context [match ?x with _ => _ end] => destruct x
         end;
  cbn; lia.

(** The log of a node: the call of its stage that the guard lets through. *)
Lemma stage_log (w : World) (n : node) (state : State) :
  fst (run_node w n state)
  = match n with
    | NIntent =>
        if String.eqb (default "" (user_query state)) "" then []
        else [EvLLM AIntent]
    | NResearch =>
        if truthy (default (JStr "") (topic state)) then [EvLLM AResearch]
        else []
    | NFilter =>
        match default [] (raw_tweets state) with
        | [] => []
        | _ => [EvLLM AFilter]
        end
    | NSummarize =>
        match default [] (filtered_tweets state) with
        | [] => []
        | _ => [EvLLM ASummarize]
        end
    | NDraft =>
        if truthy (default (JStr "") (summary state)) then
          match check_trends (default (JArr []) (key_trends state)) with
          | Ok _ => [EvLLM ADraft]
          | Raise _ => []
          end
        else []
    | NReview => []
    | NPublish => [EvTweet]
    end.
Proof.
  destruct n; cbn [run_node].
  - unfold intent_process.
    destruct (String.eqb _ ""); [reflexivity|].
    rewrite fst_try_except_all_silent by (intros; apply silent_ret).
    rewrite fst_bind_silent; [apply fst_invoke_llm|]. intros. silent_walk.
  - unfold research_process.
    destruct (truthy _); [|reflexivity]. cbn [negb].
    rewrite fst_bind_silent by (intros; apply silent_ret).
    apply fst_generate_research_strategy.
  - unfold filter_process.
    destruct (default [] (raw_tweets state)) as [|p rest]; [reflexivity|].
    rewrite fst_bind_silent by (intros; silent_walk).
    apply fst_score_posts.
  - unfold summarize_process.
    destruct (default [] (filtered_tweets state)) as [|p rest]; [reflexivity|].
    rewrite fst_bind_silent.
    + rewrite fst_try_except_all_silent by (intros; apply silent_raise).
      apply fst_invoke_llm.
    + intros. silent_walk. apply silent_unfence.
  - unfold draft_process.
    destruct (truthy _); [|reflexivity]. cbn [negb].
    rewrite fst_bind_silent by (intros; apply silent_ret).
    apply fst_create_draft.
  - reflexivity.
  - unfold handle_approval, publishing_failed, tell.
    destruct (create_tweet w _) as [id|e].
    + destruct (if has_draft_id state && db_manager w
                then db_record_approval w else Ok tt) as [[]|e]; [reflexivity|].
      destruct (persists w state); [|reflexivity].
      now destruct (db_update_workflow_status w) as [[]|e'].
    + destruct (persists w state); [|reflexivity].
      now destruct (db_update_workflow_status w) as [[]|e'].
Qed.

(** No stage retries: each graph node calls the reasoning service at most
    once, exactly when the stage's own input guard lets it through, only
    the publish node posts, and it posts once. *)
Theorem node_calls (w : World) (n : node) (state : State) :
  fst (run_node w n state)
  = match n with
    | NIntent =>
        if String.eqb (default "" (user_query state)) "" then []
        else [EvLLM AIntent]
    | NResearch =>
        if truthy (default (JStr "") (topic state)) then [EvLLM AResearch]
        else []
    | NFilter =>
        match default [] (raw_tweets state) with
        | [] => []
        | _ => [EvLLM AFilter]
        end
    | NSummarize =>
        match default [] (filtered_tweets state) with
        | [] => []
        | _ => [EvLLM ASummarize]
        end
    | NDraft =>
        if truthy (default (JStr "") (summary state)) then
          match check_trends (default (JArr []) (key_trends state)) with
          | Ok _ => [EvLLM ADraft]
          | Raise _ => []
          end
        else []
    | NReview => []
    | NPublish => [EvTweet]
    end
  /\ (length (llm_calls_of (fst (run_node w n state))) <= 1)%nat.
Proof.
  split; [apply stage_log|]. rewrite stage_log. destruct n; calls_bound.
Qed.

(** ** The intent stage, continued *)

(** The intent stage never raises: a failure of the reasoning service, a
    reply that is not JSON and a reply that decodes to something else than
    an object each end as a message in [error], on a state that is
    otherwise the one the stage received. *)
Theorem intent_failures_are_recorded (w : World) (state : State) :
  default "" (user_query state) <> "" ->
  exists state',
    snd (intent_process w state) = Ok state'
    /\ match llm_reply w with
       | Raise e =>
           state'
           = set_error ("Intent extraction failed: LLM invocation failed: "
                        +:+ exn_msg e) state
       | Ok text =>
           match json_loads w text with
           | inl msg => state' = set_error ("Failed to parse intent: " +:+ msg) state
           | inr (JObj _) => topic state' <> None
           | inr _ =>
               exists msg,
                 state' = set_error ("Intent extraction failed: " +:+ msg) state
           end
       end.
Proof.
  intros Hq. unfold intent_process, invoke_llm, loads.
  destruct (String.eqb_spec (default "" (user_query state)) "") as [|_];
    [contradiction|].
  destruct (llm_reply w) as [text|e]; cbn; [|eauto].
  destruct (json_loads w text) as [msg|decoded]; cbn; [eauto|].
  destruct decoded; cbn; eauto.
  destruct (persists w state); [|cbn; eauto].
  destruct (db_create_intent w) as [[]|e]; cbn; eexists; split; eauto;
    unfold intent_failed; try destruct (exn_kind_eqb _ _); discriminate.
Qed.

Lemma intent_failures_are_recorded_witness :
  exists state',
    snd (intent_process undecodable_world (create_initial_state "news" 1))
    = Ok state'
    /\ error state' = Some "Failed to parse intent: Expecting value".
Proof.
  destruct (intent_failures_are_recorded undecodable_world
              (create_initial_state "news" 1)) as (state' & Hrun & Hcase).
  - discriminate.
  - exists state'. split; [exact Hrun|]. cbn in Hcase. now rewrite Hcase.
Defined.

(** ** The summarization stage *)

(** When the reasoning service fails, the summarization stage raises, and
    not the failure itself: its [except] clause names [json], which the
    function binds only after the call, so evaluating the clause raises an
    [UnboundLocalError]. *)
Theorem summarize_llm_failure_raises (w : World) (state : State) (e : exn) :
  default [] (filtered_tweets state) <> [] ->
  llm_reply w = Raise e ->
  exists msg,
    summarize_process w state
    = ([EvLLM ASummarize], Raise (Exn UnboundLocalError msg)).
Proof.
  intros Hposts Hllm. unfold summarize_process, invoke_llm.
  destruct (default [] (filtered_tweets state)); [congruence|].
  rewrite Hllm. eexists. reflexivity.
Qed.

Lemma summarize_llm_failure_raises_witness :
  exists msg,
    summarize_process down_world ranked_state
    = ([EvLLM ASummarize], Raise (Exn UnboundLocalError msg)).
Proof.
  apply (summarize_llm_failure_raises down_world ranked_state
           (Exn ExternalError "connection refused")).
  - vm_compute. discriminate.
  - reflexivity.
Defined.

(** A reply that is not JSON ends the summarization stage with a message in
    [error]; the summary, the trends and the opinions are left as they
    were. *)
Theorem summarize_decode_failure (w : World) (state : State)
    (text text' msg : string) :
  default [] (filtered_tweets state) <> [] ->
  llm_reply w = Ok text ->
  unfence text = ret text' ->
  json_loads w text' = inl msg ->
  summarize_process w state
  = ([EvLLM ASummarize],
     Ok (set_error ("Failed to generate insights: " +:+ msg) state)).
Proof.
  intros Hposts Hllm Hfence Hjson. unfold summarize_process, invoke_llm, loads.
  destruct (default [] (filtered_tweets state)); [congruence|].
  rewrite Hllm. cbn. rewrite Hfence. cbn. rewrite Hjson. reflexivity.
Qed.

Lemma summarize_decode_failure_witness :
  summarize_process undecodable_world ranked_state
  = ([EvLLM ASummarize],
     Ok (set_error "Failed to generate insights: Expecting value" ranked_state)).
Proof.
  apply (summarize_decode_failure undecodable_world ranked_state
           "Sure! Here are the scores." "Sure! Here are the scores."
           "Expecting value").
  - vm_compute. discriminate.
  - reflexivity.
  - reflexivity.
  - reflexivity.
Defined.

(** A reply that decodes to an object without a summary is accepted by the
    summarization stage, which stores the empty string; it is the drafting
    stage that then stops, with its own message and without a call of the
    reasoning service. *)
Theorem summary_missing_stops_drafting (w w' : World) (state : State)
    (text text' : string) (kv : list (string * json)) :
  default [] (filtered_tweets state) <> [] ->
  llm_reply w = Ok text ->
  unfence text = ret text' ->
  json_loads w text' = inr (JObj kv) ->
  assoc_get "summary" kv = None ->
  has_len (default (JArr []) (assoc_get "key_trends" kv)) = true ->
  exists summarized,
    summarize_process w state = ([EvLLM ASummarize], Ok summarized)
    /\ summary summarized = Some (JStr "")
    /\ error summarized = error state
    /\ draft_process w' summarized
       = ([], Ok (set_error "No summary available for drafting" summarized)).
Proof.
  intros Hposts Hllm Hfence Hjson Hsummary Hlen.
  unfold summarize_process, invoke_llm, loads.
  destruct (default [] (filtered_tweets state)); [congruence|].
  rewrite Hllm. cbn. rewrite Hfence. cbn. rewrite Hjson. cbn.
  rewrite Hsummary.
  destruct (assoc_get "key_trends" kv) as [trends|]; cbn in *;
    rewrite ?Hlen; cbn;
    (eexists; split; [reflexivity|]; now repeat split).
Qed.

Lemma summary_missing_stops_drafting_witness :
  exists summarized,
    summarize_process (reply_world (JObj [("key_trends", JArr [])])) ranked_state
    = ([EvLLM ASummarize], Ok summarized)
    /\ draft_process down_world summarized
       = ([], Ok (set_error "No summary available for drafting" summarized)).
Proof.
  destruct (summary_missing_stops_drafting
              (reply_world (JObj [("key_trends", JArr [])])) down_world
              ranked_state "reply" "reply" [("key_trends", JArr [])])
    as (summarized & Hrun & _ & _ & Hdraft).
  - vm_compute. discriminate.
  - reflexivity.
  - reflexivity.
  - reflexivity.
  - reflexivity.
  - reflexivity.
  - exists summarized. split; [exact Hrun|exact Hdraft].
Defined.

(** ** The drafting stage, continued *)

(** A failure of the reasoning service does not fail the drafting stage:
    with a summary and a topic that are strings the draft is the first 250
    characters of the summary, a space, and the topic without its spaces as
    a hashtag, cut at 280 characters; no error is recorded and the version
    is 1. *)
Theorem draft_fallback_on_llm_failure (w : World) (state : State)
    (t s : string) (e : exn) :
  topic state = Some (JStr t) ->
  summary state = Some (JStr s) ->
  s <> "" ->
  check_trends (default (JArr []) (key_trends state)) = Ok tt ->
  llm_reply w = Raise e ->
  exists state',
    draft_process w state = ([EvLLM ADraft], Ok state')
    /\ draft_content state'
       = Some (str_take 280 (str_take 250 s +:+ " #" +:+ remove_char " " t))
    /\ draft_version state' = Some 1%Z
    /\ error state' = error state.
Proof.
  intros Ht Hs Hne Htrends Hllm.
  unfold draft_process, _create_draft, invoke_llm.
  rewrite Ht, Hs, Htrends, Hllm. cbn.
  apply String.eqb_neq in Hne. rewrite Hne. cbn.
  eexists. split; [reflexivity|].
  rewrite save_draft_content, save_draft_version, save_draft_error.
  now repeat split.
Qed.

Lemma draft_fallback_on_llm_failure_witness :
  exists state',
    draft_process down_world summarized_state = ([EvLLM ADraft], Ok state')
    /\ draft_content state' = Some "AI is moving fast. #AInews"
    /\ error state' = None.
Proof.
  destruct (draft_fallback_on_llm_failure down_world summarized_state
              "AI news" "AI is moving fast."
              (Exn ExternalError "connection refused"))
    as (state' & Hrun & Hdraft & _ & Herr);
    [reflexivity|reflexivity|discriminate|reflexivity|reflexivity|].
  exists state'. split; [exact Hrun|]. split; [exact Hdraft|exact Herr].
Defined.

Lemma str_take_app (a b : string) : str_take (String.length a) (a +:+ b) = a.
Proof.
  induction a as [|c a IH]; [now destruct b|].
  change (String c a +:+ b) with (String c (a +:+ b)).
  cbn [String.length]. unfold str_take; fold str_take. now rewrite IH.
Qed.

Lemma endswith_char_app (q : ascii) (a : string) :
  endswith_char q (a +:+ String q "") = true.
Proof.
  induction a as [|c a IH]; [cbn; apply Ascii.eqb_refl|].
  change (String c a +:+ String q "") with (String c (a +:+ String q "")).
  cbn [endswith_char]. destruct (a +:+ String q "") eqn:Ha; [|exact IH].
  destruct a; discriminate.
Qed.

(** Removing the quotes undoes wrapping in them: a text between two quote
    characters gives back the text, whatever it contains. A lone quote
    character counts as wrapped and gives the empty text. *)
Theorem unquote_wrapped (q : ascii) (body : string) :
  unquote q (String q (body +:+ String q "")) = body
  /\ unquote q (String q "") = "".
Proof.
  split.
  - unfold unquote.
    change (String q (body +:+ String q ""))
      with (String q "" +:+ (body +:+ String q "")) at 2.
    cbn [startswith_char]. rewrite Ascii.eqb_refl.
    change (String q "" +:+ (body +:+ String q ""))
      with (String q (body +:+ String q "")).
    assert (endswith_char q (String q (body +:+ String q "")) = true) as ->.
    { cbn [endswith_char].
      destruct (body +:+ String q "") eqn:Hb; [destruct body; discriminate|].
      rewrite <- Hb. apply endswith_char_app. }
    cbn [andb]. unfold str_inner. cbn [String.length str_drop].
    rewrite str_app_length. cbn [String.length].
    replace (S (String.length body + 1) - 2)%nat with (String.length body)
      by lia.
    apply str_take_app.
  - unfold unquote. cbn. now rewrite Ascii.eqb_refl.
Qed.

(** ** Revisions *)

(** [create_revision] never raises. When the reasoning service answers, the
    draft becomes its cleaned reply and the version goes one up, counting a
    missing version as 1; when it fails, only [error] changes. *)
Theorem revision_outcomes (w : World) (state : State) (feedback : string) :
  match llm_reply w with
  | Ok reply =>
      exists state',
        create_revision w state feedback = ([EvLLM ADraft], Ok state')
        /\ draft_content state' = Some (truncate (unquote dquote (strip reply)))
        /\ draft_version state' = Some (default 1 (draft_version state) + 1)%Z
        /\ error state' = error state
  | Raise e =>
      create_revision w state feedback
      = ([EvLLM ADraft],
         Ok (set_error ("Failed to create revision: LLM invocation failed: "
                        +:+ exn_msg e) state))
  end.
Proof.
  unfold create_revision, invoke_llm.
  destruct (llm_reply w) as [reply|e]; cbn; [|reflexivity].
  eexists. split; [reflexivity|].
  rewrite save_draft_content, save_draft_version, save_draft_error.
  now repeat split.
Qed.

Lemma revision_made (w : World) (state : State) (feedback reply : string) :
  llm_reply w = Ok reply ->
  exists state',
    create_revision w state feedback = ([EvLLM ADraft], Ok state')
    /\ draft_content state' = Some (truncate (unquote dquote (strip reply)))
    /\ draft_version state' = Some (default 1 (draft_version state) + 1)%Z
    /\ error state' = error state.
Proof.
  intros Hllm. unfold create_revision, invoke_llm. rewrite Hllm. cbn.
  eexists. split; [reflexivity|].
  rewrite save_draft_content, save_draft_version, save_draft_error.
  now repeat split.
Qed.

(** Two revisions in a row, each answered, take the version two up and
    leave the draft of the second reply. *)
Theorem two_revisions_add_two (w1 w2 : World) (state : State)
    (feedback1 feedback2 reply1 reply2 : string) :
  llm_reply w1 = Ok reply1 ->
  llm_reply w2 = Ok reply2 ->
  exists state',
    bind (create_revision w1 state feedback1)
      (fun revised => create_revision w2 revised feedback2)
    = ([EvLLM ADraft; EvLLM ADraft], Ok state')
    /\ draft_version state' = Some (default 1 (draft_version state) + 2)%Z
    /\ draft_content state' = Some (truncate (unquote dquote (strip reply2)))
    /\ error state' = error state.
Proof.
  intros H1 H2.
  destruct (revision_made w1 state feedback1 reply1 H1)
    as (s1 & Hrun1 & _ & Hv1 & He1).
  destruct (revision_made w2 s1 feedback2 reply2 H2)
    as (s2 & Hrun2 & Hc2 & Hv2 & He2).
  exists s2. unfold bind. rewrite Hrun1, Hrun2. split; [reflexivity|].
  rewrite Hv2, Hv1, He2, He1. cbn. split; [f_equal; lia|]. now split.
Qed.

Lemma two_revisions_add_two_witness :
  exists state',
    bind (create_revision tweet_world revision_state "shorter")
      (fun revised => create_revision tweet_world revised "add a hashtag")
    = ([EvLLM ADraft; EvLLM ADraft], Ok state')
    /\ draft_version state' = Some 3%Z.
Proof.
  destruct (two_revisions_add_two tweet_world tweet_world revision_state
              "shorter" "add a hashtag" "AI is moving fast. #AI"
              "AI is moving fast. #AI")
    as (state' & Hrun & Hversion & _); [reflexivity|reflexivity|].
  exists state'. split; [exact Hrun|exact Hversion].
Defined.

(** ** Publishing *)

(** An approval posts the draft once. When Twitter accepts it and the
    approval is stored, the state is marked published and carries the id
    and the address of the post; when Twitter refuses, the refusal is
    recorded in [error] and the state is not marked published. *)
Theorem approval_outcomes (w : World) (state : State) :
  persists w state = false \/ db_update_workflow_status w = Ok tt ->
  has_draft_id state && db_manager w = false \/ db_record_approval w = Ok tt ->
  match create_tweet w (default "" (draft_content state)) with
  | Ok id =>
      exists state',
        handle_approval w state = ([EvTweet], Ok state')
        /\ published state' = Some true
        /\ tweet_id state' = Some id
        /\ tweet_url state'
           = Some ("https://twitter.com/user/status/" +:+ py_str w id)
        /\ error state' = error state
  | Raise e =>
      handle_approval w state
      = ([EvTweet], Ok (set_error ("Publishing failed: " +:+ exn_msg e) state))
  end.
Proof.
  intros Hstatus Hrecord. unfold handle_approval, publishing_failed, tell.
  destruct (create_tweet w _) as [id|e]; cbn.
  - assert ((if has_draft_id state && db_manager w
             then db_record_approval w else Ok tt) = Ok tt) as ->.
    { destruct Hrecord as [-> | Hrecord]; [reflexivity|].
      now destruct (has_draft_id state && db_manager w). }
    cbn. eexists. split; [reflexivity|]. now repeat split.
  - destruct Hstatus as [-> | Hstatus]; [reflexivity|].
    destruct (persists w state); [|reflexivity]. now rewrite Hstatus.
Qed.

Lemma approval_outcomes_witness :
  exists state',
    handle_approval posting_world approved_state = ([EvTweet], Ok state')
    /\ published state' = Some true
    /\ tweet_url state' = Some "https://twitter.com/user/status/42".
Proof.
  pose proof (approval_outcomes posting_world approved_state) as Hout.
  destruct Hout as (state' & Hrun & Hpub & _ & Hurl & _);
    [right; reflexivity|right; reflexivity|].
  exists state'. split; [exact Hrun|]. split; [exact Hpub|exact Hurl].
Defined.

(** When Twitter has accepted the post but the approval cannot be stored,
    the stage reports a publishing failure: [error] is set and the state is
    neither marked published nor given the id of the post that exists. *)
Theorem approval_unrecorded_reports_failure (w : World) (state : State)
    (id : json) (e : exn) :
  create_tweet w (default "" (draft_content state)) = Ok id ->
  has_draft_id state && db_manager w = true ->
  db_record_approval w = Raise e ->
  persists w state = false \/ db_update_workflow_status w = Ok tt ->
  handle_approval w state
  = ([EvTweet], Ok (set_error ("Publishing failed: " +:+ exn_msg e) state)).
Proof.
  intros Htweet Hdb Hrecord Hstatus.
  unfold handle_approval, publishing_failed, tell.
  rewrite Htweet, Hdb, Hrecord. cbn.
  destruct Hstatus as [-> | Hstatus]; [reflexivity|].
  destruct (persists w state); [|reflexivity]. now rewrite Hstatus.
Qed.

Lemma approval_unrecorded_reports_failure_witness :
  handle_approval unrecorded_world approved_state
  = ([EvTweet],
     Ok (set_error "Publishing failed: database is locked" approved_state))
  /\ published (set_error "Publishing failed: database is locked" approved_state)
     = Some false.
Proof.
  split; [|reflexivity].
  apply (approval_unrecorded_reports_failure unrecorded_world approved_state
           (JStr "42") (Exn ExternalError "database is locked")).
  - reflexivity.
  - reflexivity.
  - reflexivity.
  - right. reflexivity.
Defined.

(** A revision request that returns has put the feedback on the state, and
    the review branch then leads back to the draft node, unless the draft
    is approved as well: then it leads to publish. *)
Theorem revision_request_routes_to_draft (w : World) (state : State)
    (feedback : string) (log : list event) (state' : State) :
  handle_revision_request w state feedback = (log, Ok state') ->
  revision_feedback state' = Some feedback
  /\ next_node NReview state'
     = if flag (approved state) then Some NPublish else Some NDraft.
Proof.
  unfold handle_revision_request. intros Hrun.
  apply bind_Ok in Hrun as (l1 & [] & l2 & _ & Hret & _).
  apply ret_Ok in Hret as [<- _]. split; [reflexivity|].
  unfold next_node, _should_publish, flag. cbn.
  now destruct (default false (approved state)).
Qed.

Lemma revision_request_routes_to_draft_witness :
  exists state',
    handle_revision_request tweet_world summarized_state "too long"
    = ([], Ok state')
    /\ next_node NReview state' = Some NDraft.
Proof.
  eexists. split; [reflexivity|].
  apply (revision_request_routes_to_draft tweet_world summarized_state
           "too long" []).
  reflexivity.
Defined.

(** ** Runs of the graph *)

Lemma save_draft_flags (w : World) (state state0 state' : State) :
  same_flags state0 state' -> same_flags state0 (save_draft w state state').
Proof.
  unfold save_draft.
  destruct (persists w state); [|auto].
  now destruct (db_add_draft w).
Qed.

Lemma intent_failed_flags (state0 state : State) (e : exn) :
  same_flags state0 state -> same_flags state0 (intent_failed state e).
Proof. unfold intent_failed. now destruct (exn_kind_eqb _ _). Qed.

(** No node writes the flags the review branch reads, and only the publish
    node writes [published]. *)
Lemma run_node_keeps_flags (w : World) (n : node) (state : State) :
  ensures (fun state' =>
             same_flags state state'
             /\ (n <> NPublish -> published state' = published state))
    (run_node w n state).
Proof.
  destruct n; cbn [run_node].
  - unfold intent_process. ensures_walk;
      solve [ now cbn
            | split; [apply intent_failed_flags|]; now cbn
            | split; [|intros _]; unfold intent_failed;
              destruct (exn_kind_eqb _ _); now cbn ].
  - unfold research_process. ensures_walk;
      solve [ now cbn | apply ensures_generate_research_strategy ].
  - unfold filter_process. ensures_walk;
      solve [ now cbn | apply ensures_score_posts ].
  - unfold summarize_process. ensures_walk;
      solve [ now cbn | apply ensures_unfence ].
  - unfold draft_process. ensures_walk;
      try solve [ now cbn | apply ensures_create_draft ].
    split; [apply save_draft_flags; now cbn|].
    intros _. unfold save_draft.
    destruct (persists w state); [|reflexivity].
    now destruct (db_add_draft w).
  - unfold request_human_review. ensures_walk. now cbn.
  - unfold handle_approval, publishing_failed. ensures_walk;
      (split; [now cbn|congruence]).
Qed.

Lemma run_node_flags (w : World) (n : node) (state : State)
    (log : list event) (state' : State) :
  run_node w n state = (log, Ok state') ->
  flag (approved state') = flag (approved state)
  /\ flag (revision_requested state') = flag (revision_requested state)
  /\ (n <> NPublish -> published state' = published state)
  /\ quiet log.
Proof.
  intros Hrun. destruct (run_node_keeps_flags w n state) as [Hquiet Hflags].
  rewrite Hrun in Hquiet, Hflags. cbn in Hquiet, Hflags.
  destruct (Hflags state' eq_refl) as [[-> ->] Hpub]. auto.
Qed.

Lemma no_tweet_outside_publish (w : World) (n : node) (state : State) :
  n <> NPublish -> ~ In EvTweet (fst (run_node w n state)).
Proof.
  intros Hn. rewrite stage_log.
  destruct n; try congruence;
    repeat match goal with
           | |- context [match ?x with _ => _ end] => destruct x
           end;
    cbn; intuition discriminate.
Qed.

(** The graph never takes the publish or the revise edge: the flags are not
    on the channels when [_should_publish] looks for them. A run that
    completes goes along the forward edges to review and stops there; it has
    not entered the publish node, has not posted and has left [published]
    as it was, and what it returns has the declared keys only. *)
Lemma run_stops_at_review (fuel : nat) (worlds : nat -> World)
    (step : nat) (n : node) (state : State) (log : list event)
    (state' : State) :
  n <> NPublish ->
  invoke_from fuel worlds step n state = (log, Ok state') ->
  nodes_of log = forward_path n
  /\ published state' = published state
  /\ ~ In EvTweet log
  /\ declared state' = state'.
Proof.
  revert step n state log. induction fuel as [|fuel IH];
    intros step n state log Hn Hrun; [discriminate|].
  apply invoke_from_Ok in Hrun
    as (fuel' & l1 & state1 & l2 & [= <-] & Hnode & -> & Hnext).
  destruct (run_node_flags _ _ _ _ _ Hnode) as (_ & _ & Hpub & Hquiet).
  pose proof (no_tweet_outside_publish (worlds step) n state Hn) as Htweet.
  rewrite Hnode in Htweet. cbn [fst] in Htweet. specialize (Hpub Hn).
  change (published state1) with (published (declared state1)) in Hpub.
  change (EvNode n :: l1 ++ l2) with ([EvNode n] ++ l1 ++ l2).
  rewrite !nodes_of_app, Hquiet. cbn [nodes_of omap app].
  assert (next_node n (declared state1)
          = match n with
            | NIntent => Some NResearch
            | NResearch => Some NFilter
            | NFilter => Some NSummarize
            | NSummarize => Some NDraft
            | NDraft => Some NReview
            | _ => None
            end) as Hedge by (now destruct n).
  rewrite Hedge in Hnext.
  destruct n; try congruence;
    try (apply IH in Hnext as (Hnodes & Hpub' & Htweet' & Hkeys);
         [|discriminate];
         rewrite Hnodes, Hpub', Hpub; repeat split; try assumption;
         cbn [In]; rewrite List.in_app_iff; intuition discriminate).
  destruct Hnext as [-> ->].
  split; [reflexivity|]. split; [exact Hpub|]. split; [|reflexivity].
  intros [Hbad|Hbad]; [discriminate|].
  apply List.in_app_iff in Hbad as [Hbad|[]]. now apply Htweet.
Qed.

(** [WorkflowGraph.run] never publishes: a run that completes has gone
    through intent, research, filter, summarize, draft and review, once
    each, and ended there, with no post made and [published] still false. *)
Theorem run_ends_at_review (fuel : nat) (worlds : nat -> World)
    (user_query : string) (workflow_id : Z) (log : list event)
    (state' : State) :
  run fuel worlds user_query workflow_id = (log, Ok state') ->
  nodes_of log = [NIntent; NResearch; NFilter; NSummarize; NDraft; NReview]
  /\ published state' = Some false
  /\ ~ In EvTweet log.
Proof.
  unfold run, graph_invoke. intros Hrun.
  apply run_stops_at_review in Hrun as (Hnodes & Hpub & Htweet & _);
    [|discriminate].
  now repeat split.
Qed.

Lemma run_ends_at_review_witness :
  exists log state',
    run 25 (fun _ => down_world) "" 1 = (log, Ok state')
    /\ nodes_of log = [NIntent; NResearch; NFilter; NSummarize; NDraft; NReview]
    /\ published state' = Some false.
Proof.
  destruct (run 25 (fun _ => down_world) "" 1) as [log [state'|e]] eqn:Hrun;
    [|vm_compute in Hrun; discriminate].
  destruct (run_ends_at_review 25 (fun _ => down_world) "" 1 log state' Hrun)
    as (Hnodes & Hpub & _).
  exists log, state'. split; [reflexivity|]. split; [exact Hnodes|exact Hpub].
Defined.

(** The graph does not see the decision of a human review. [approved] and
    [revision_requested] are no keys of [WorkflowState]: set on the state
    given to [invoke], they do not reach [_should_publish], which answers
    "end". Whatever the state, a run that completes enters the six nodes
    from intent to review once each, neither publishes nor drafts again,
    posts nothing, leaves [published] as it was, and returns a state
    without the two flags and without [review_requested]. *)
Theorem graph_drops_review_flags (fuel : nat) (worlds : nat -> World)
    (state : State) (log : list event) (state' : State) :
  graph_invoke fuel worlds state = (log, Ok state') ->
  nodes_of log = [NIntent; NResearch; NFilter; NSummarize; NDraft; NReview]
  /\ ~ In EvTweet log
  /\ published state' = published state
  /\ approved state' = None
  /\ revision_requested state' = None
  /\ review_requested state' = None.
Proof.
  unfold graph_invoke. intros Hrun.
  apply run_stops_at_review in Hrun as (Hnodes & Hpub & Htweet & Hkeys);
    [|discriminate].
  rewrite <- Hkeys. now repeat split.
Qed.

Lemma graph_drops_review_flags_witness :
  approved approved_state = Some true
  /\ revision_requested revision_state = Some true
  /\ (exists log state',
        graph_invoke 25 (fun _ => posting_world) approved_state
        = (log, Ok state')
        /\ nodes_of log
           = [NIntent; NResearch; NFilter; NSummarize; NDraft; NReview]
        /\ published state' = Some false)
  /\ (exists log state',
        graph_invoke 25 (fun _ => tweet_world) revision_state
        = (log, Ok state')
        /\ nodes_of log
           = [NIntent; NResearch; NFilter; NSummarize; NDraft; NReview]
        /\ revision_requested state' = None).
Proof.
  split; [reflexivity|]. split; [reflexivity|]. split.
  - destruct (graph_invoke 25 (fun _ => posting_world) approved_state)
      as [log [state'|e]] eqn:Hrun; [|vm_compute in Hrun; discriminate].
    destruct (graph_drops_review_flags 25 (fun _ => posting_world)
                approved_state log state' Hrun) as (Hnodes & _ & Hpub & _).
    exists log, state'. split; [reflexivity|]. split; [exact Hnodes|].
    exact Hpub.
  - destruct (graph_invoke 25 (fun _ => tweet_world) revision_state)
      as [log [state'|e]] eqn:Hrun; [|vm_compute in Hrun; discriminate].
    destruct (graph_drops_review_flags 25 (fun _ => tweet_world)
                revision_state log state' Hrun)
      as (Hnodes & _ & _ & _ & Hrevision & _).
    exists log, state'. split; [reflexivity|]. split; [exact Hnodes|].
    exact Hrevision.
Defined.

(** With no candidate on the state and no summary yet, the filter, the
    summarization and the drafting stage, called one after the other, make
    no external call at all: the filter stage stores an empty ranking, the
    summarization and drafting stages each put their own message in
    [error], the second replacing the first, and no draft is made. *)
Theorem no_candidates_ends_in_errors (top_k : Z) (w1 w2 w3 : World)
    (state : State) :
  default [] (raw_tweets state) = [] ->
  truthy (default (JStr "") (summary state)) = false ->
  (do filtered <- filter_process top_k w1 state;
   do summarized <- summarize_process w2 filtered;
   draft_process w3 summarized)
  = ([], Ok (set_error "No summary available for drafting"
               (set_error "No filtered posts to summarize"
                  (set_filtered_tweets [] state)))).
Proof.
  intros Hraw Hsummary.
  unfold filter_process. rewrite Hraw.
  cbn [bind ret app].
  unfold summarize_process.
  cbn [filtered_tweets set_filtered_tweets default from_option id bind ret
         app].
  unfold draft_process.
  change (summary (set_error "No filtered posts to summarize"
                     (set_filtered_tweets [] state)))
    with (summary state).
  now rewrite Hsummary.
Qed.

Lemma no_candidates_ends_in_errors_witness :
  let state := create_initial_state "news" 1 in
  (do filtered <- filter_process 5 down_world state;
   do summarized <- summarize_process down_world filtered;
   draft_process down_world summarized)
  = ([], Ok (set_error "No summary available for drafting"
               (set_error "No filtered posts to summarize"
                  (set_filtered_tweets [] state)))).
Proof.
  intros state.
  apply (no_candidates_ends_in_errors 5 down_world down_world down_world state);
    reflexivity.
Defined.

(** ** Settings *)

Lemma existsb_eqb_In (v : string) (l : list string) :
  existsb (String.eqb v) l = true <-> In v l.
Proof.
  rewrite existsb_exists. split.
  - intros (x & Hin & Heq). apply String.eqb_eq in Heq. now subst.
  - intros Hin. exists v. split; [exact Hin|apply String.eqb_refl].
Qed.

(** [validate_log_level] accepts a level in any letter case and returns it
    in upper case; what it returns is one of the five levels and is
    accepted unchanged when validated again; it rejects exactly the strings
    whose upper-case form is no level. *)
Theorem validate_log_level_normalizes (v : string) :
  match validate_log_level v with
  | Ok level =>
      level = upper v
      /\ In level valid_levels
      /\ validate_log_level level = Ok level
  | Raise e => exn_type e = ValueError /\ ~ In (upper v) valid_levels
  end.
Proof.
  unfold validate_log_level.
  destruct (existsb (String.eqb (upper v)) valid_levels) eqn:Hin; cbn [negb].
  - apply existsb_eqb_In in Hin. split; [reflexivity|]. split; [exact Hin|].
    cbn in Hin.
    repeat (destruct Hin as [<-|Hin]; [reflexivity|]). destruct Hin.
  - split; [reflexivity|]. intros Hbad. apply existsb_eqb_In in Hbad.
    congruence.
Qed.
